(** * Moderation-decision actions of [olympia.abuse.utils]

    A shallow embedding of the [CinderAction] class hierarchy: the
    constructor's target check, the [process_action] bodies, the owner and
    reporter notifiers and the human-review flagger of the escalation
    action, followed by the properties proved about them. *)

From Stdlib Require Import ZArith Lia Ascii String.
From stdpp Require Import base decidable option list sorting strings gmap pretty.

Local Open Scope Z_scope.
Local Open Scope string_scope.

(** ** Entities *)

(** Only the attributes that [utils.py] reads or tests are kept.  [banned]
    and [deleted] are used through their truth value alone. *)

Record UserProfile := {
  user_pk : Z;
  user_name : string;
  user_email : option string;
  banned : bool
}.

Record Version := {
  version_id : Z;
  version : string
}.

Record Addon := {
  addon_pk : Z;
  addon_name : string;
  status : Z;
  authors : list UserProfile;
  current_version : option Version;
  versions : list Version
}.

Record Collection := {
  collection_name : string;
  collection_deleted : bool;
  collection_author : UserProfile
}.

Record Rating := {
  rating_pk : Z;
  rating_deleted : bool;
  rating_user : UserProfile;
  rating_addon : Addon
}.

Inductive Target :=
| TAddon (a : Addon)
| TUserProfile (u : UserProfile)
| TCollection (c : Collection)
| TRating (r : Rating).

(** The model classes that [isinstance] is asked about. *)
Inductive Kind := Addon_ | UserProfile_ | Collection_ | Rating_.

Definition kind_of (t : Target) : Kind :=
  match t with
  | TAddon _ => Addon_
  | TUserProfile _ => UserProfile_
  | TCollection _ => Collection_
  | TRating _ => Rating_
  end.

#[global] Instance Kind_eq_dec : EqDecision Kind.
Proof. solve_decision. Defined.
#[global] Instance UserProfile_eq_dec : EqDecision UserProfile.
Proof. solve_decision. Defined.
#[global] Instance Version_eq_dec : EqDecision Version.
Proof. solve_decision. Defined.

(** [isinstance(target, classes)] for a tuple of model classes. *)
Definition isinstance (t : Target) (classes : list Kind) : bool :=
  bool_decide (kind_of t ∈ classes).

Record NeedsHumanReview := {
  nhr_version : Version;
  nhr_reason : Z;
  nhr_is_active : bool
}.

Record AbuseReport := {
  report_id : Z;
  reporter : option UserProfile;
  reporter_email : option string;
  application_locale : option string;
  report_addon_version : option string
}.

Record Policy := { policy_name : string; policy_text : string }.

(** [decision.cinder_job.abusereport_set] is flattened into [reports]. *)
Record CinderDecision := {
  cinder_id : string;
  reference_id : string;
  notes : option string;
  is_third_party_initiated : bool;
  policies : list Policy;
  reports : list AbuseReport
}.

(** ** Activity log *)

Inductive LogAction :=
| FORCE_DISABLE
| COLLECTION_DELETED
| COLLECTION_UNDELETED
| NEEDS_HUMAN_REVIEW_CINDER.

Inductive LogArgument := ArgTarget (t : Target) | ArgVersion (v : Version).

Record ActivityLog := {
  log_id : Z;
  log_action : LogAction;
  log_arguments : list LogArgument;
  log_details : option string
}.

(** ** Template contexts *)

Inductive Value :=
| VStr (s : string)
| VBool (b : bool)
| VTarget (t : Target)
| VPolicies (ps : list Policy).

(** ** Calls made to collaborators, in order *)

Inductive Call :=
| call_ban_and_disable_related_content (pk : Z)
| call_unban_and_reenable_related_content (pk : Z)
| call_force_disable
| call_force_enable
| call_delete
| call_undelete
| call_nhr_save (row : NeedsHumanReview)
| call_set_needs_human_review_on_latest_versions (reason : Z)
    (ignore_reviewed unique_reason skip_activity_log : bool)
| call_log_info
| call_get_template (path : string)
| call_render (path : string) (context : gmap string Value)
| call_send_activity_mail (subject message : string) (v : Version)
    (recipients : list UserProfile) (from_email : string) (unique_id : Z)
| call_send_mail (subject message : string)
    (recipient_list : list (option string)).

(** ** The world a decision is processed in *)

(** [target] is the object [decision.target], the one [__init__] binds to
    [self.target]: one object in memory, which a model method called on it
    changes, and which is read again from nowhere.  [users] is the table
    behind [UserProfile.objects], by primary key; a query on it builds
    objects of its own and leaves [target] as it is. *)
Record World := {
  target : Target;
  users : gmap Z UserProfile;
  flags : list NeedsHumanReview;
  activity_log : list ActivityLog;
  calls : list Call
}.

Definition set_target (t : Target) (w : World) : World :=
  {| target := t; users := users w; flags := flags w;
     activity_log := activity_log w; calls := calls w |}.

Definition set_users (us : gmap Z UserProfile) (w : World) : World :=
  {| target := target w; users := us; flags := flags w;
     activity_log := activity_log w; calls := calls w |}.

Definition set_flags (fl : list NeedsHumanReview) (w : World) : World :=
  {| target := target w; users := users w; flags := fl;
     activity_log := activity_log w; calls := calls w |}.

Definition add_log (e : ActivityLog) (w : World) : World :=
  {| target := target w; users := users w; flags := flags w;
     activity_log := activity_log w ++ [e]; calls := calls w |}.

Definition add_call (c : Call) (w : World) : World :=
  {| target := target w; users := users w; flags := flags w;
     activity_log := activity_log w; calls := calls w ++ [c] |}.

(** ** Exceptions and the state monad of an action *)

Inductive Exn := ImproperlyConfigured | NotImplementedError | AttributeError.

Inductive Outcome (A : Type) :=
| Returned (a : A)
| Raised (e : Exn).
Arguments Returned {A} a.
Arguments Raised {A} e.

Definition M (A : Type) : Type := World → World * Outcome A.

Definition ret {A} (a : A) : M A := λ w, (w, Returned a).
Definition raise {A} (e : Exn) : M A := λ w, (w, Raised e).
Definition bind {A B} (m : M A) (k : A → M B) : M B :=
  λ w, match m w with
       | (w', Returned a) => k a w'
       | (w', Raised e) => (w', Raised e)
       end.

#[global] Instance M_ret : MRet M := @ret.
#[global] Instance M_bind : MBind M := λ A B k m, bind m k.

Definition get_target : M Target := λ w, (w, Returned (target w)).
Definition put_target (t : Target) : M unit :=
  λ w, (set_target t w, Returned tt).
Definition record (c : Call) : M unit := λ w, (add_call c w, Returned tt).

(** [UserProfile.objects.filter(pk=pk)] followed by a method of the
    queryset: the method works on the rows with that primary key, at most
    one, as the table holds them. *)
Definition update_users_with_pk (pk : Z) (f : UserProfile → UserProfile)
  : M unit :=
  λ w, (set_users (alter f pk (users w)) w, Returned tt).

(** ** Collaborators

    Everything [utils.py] imports and calls but does not define: the
    [amo] constants, the model methods of the entity store, waffle
    switches, the decision's appeal rule, settings, the URL builder, the
    template loader and gettext. *)

Class Collaborators := {
  (* olympia.amo and olympia.reviewers.models *)
  STATUS_DISABLED : Z;
  REASON_CINDER_ESCALATION : Z;
  get_reason_display : Z → string;
  (* entity store *)
  ban_and_disable_related_content : UserProfile → UserProfile;
  unban_and_reenable_related_content : UserProfile → UserProfile;
  force_disable : Addon → Addon;
  force_enable : Addon → Addon;
  delete_collection : Collection → Collection;
  undelete_collection : Collection → Collection;
  delete_rating : Rating → Rating;
  undelete_rating : Rating → Rating;
  find_latest_version : Addon → option Version;
  set_needs_human_review_on_latest_versions :
    Addon → list NeedsHumanReview →
    ∀ (reason : Z) (ignore_reviewed unique_reason skip_activity_log : bool),
      list NeedsHumanReview * list Version;
  (* Python: the order in which a set of versions is iterated *)
  iteration_order : list Version → list Version;
  (* waffle *)
  switch_is_active : string → bool;
  (* CinderDecision.can_be_appealed(is_reporter, abuse_report) *)
  can_be_appealed : CinderDecision → bool → option AbuseReport → bool;
  (* settings *)
  SITE_URL : string;
  ADDONS_EMAIL : string;
  LANGUAGE_CODE : string;
  (* urls, templates, translations, display helpers *)
  absolutify : string → string;
  reverse_url : string → list (string * string) → string;
  render : string → gmap string Value → string;
  get_language : string;
  gettext : string → string → string;
  get_url_path : Target → string;
  get_type_display : Addon → string;
  str_of_target : Target → string
}.

(** What the takedown and reinstatement methods of the models promise:
    each leaves the status flag that the guards of [process_action] read
    in the state its name says. *)
Class EntityStoreLaws `{Collaborators} : Prop := {
  banned_after_ban u : banned (ban_and_disable_related_content u) = true;
  banned_after_unban u :
    banned (unban_and_reenable_related_content u) = false;
  status_after_force_disable a :
    status (force_disable a) = STATUS_DISABLED;
  status_after_force_enable a :
    status (force_enable a) ≠ STATUS_DISABLED;
  deleted_after_delete_collection c :
    collection_deleted (delete_collection c) = true;
  deleted_after_undelete_collection c :
    collection_deleted (undelete_collection c) = false;
  deleted_after_delete_rating r :
    rating_deleted (delete_rating r) = true;
  deleted_after_undelete_rating r :
    rating_deleted (undelete_rating r) = false
}.

(** A set is iterated element by element, each once, in an order of
    Python's choosing. *)
Class SetIterationLaws `{Collaborators} : Prop := {
  iteration_order_Permutation vs : iteration_order vs ≡ₚ vs
}.

(** ** The class hierarchy *)

Inductive Class :=
| CinderAction
| CinderActionBanUser
| CinderActionDisableAddon
| CinderActionRejectVersion
| CinderActionRejectVersionDelayed
| CinderActionEscalateAddon
| CinderActionDeleteCollection
| CinderActionDeleteRating
| CinderActionTargetAppealApprove
| CinderActionOverrideApprove
| CinderActionApproveNoAction
| CinderActionApproveInitialDecision
| CinderActionTargetAppealRemovalAffirmation
| CinderActionNotImplemented.

#[global] Instance Class_eq_dec : EqDecision Class.
Proof. solve_decision. Defined.

(** The base written in each [class] statement. *)
Definition base_class (c : Class) : option Class :=
  match c with
  | CinderAction => None
  | CinderActionRejectVersion => Some CinderActionDisableAddon
  | CinderActionRejectVersionDelayed => Some CinderActionRejectVersion
  | CinderActionOverrideApprove => Some CinderActionTargetAppealApprove
  | _ => Some CinderAction
  end.

Fixpoint mro_from (fuel : nat) (c : Class) : list Class :=
  match fuel with
  | O => []
  | S fuel' =>
      c :: match base_class c with
           | Some b => mro_from fuel' b
           | None => []
           end
  end.

(** Method resolution order; the deepest chain has four classes. *)
Definition mro (c : Class) : list Class := mro_from 4 c.

(** Attribute lookup: the first class of the [mro] whose body defines it. *)
Fixpoint first_defined {A} (own : Class → option A) (cs : list Class)
  : option A :=
  match cs with
  | [] => None
  | c :: cs' =>
      match own c with
      | Some a => Some a
      | None => first_defined own cs'
      end
  end.

Definition resolve {A} (own : Class → option A) (c : Class) : option A :=
  first_defined own (mro c).

Definition class_name (c : Class) : string :=
  match c with
  | CinderAction => "CinderAction"
  | CinderActionBanUser => "CinderActionBanUser"
  | CinderActionDisableAddon => "CinderActionDisableAddon"
  | CinderActionRejectVersion => "CinderActionRejectVersion"
  | CinderActionRejectVersionDelayed => "CinderActionRejectVersionDelayed"
  | CinderActionEscalateAddon => "CinderActionEscalateAddon"
  | CinderActionDeleteCollection => "CinderActionDeleteCollection"
  | CinderActionDeleteRating => "CinderActionDeleteRating"
  | CinderActionTargetAppealApprove => "CinderActionTargetAppealApprove"
  | CinderActionOverrideApprove => "CinderActionOverrideApprove"
  | CinderActionApproveNoAction => "CinderActionApproveNoAction"
  | CinderActionApproveInitialDecision =>
      "CinderActionApproveInitialDecision"
  | CinderActionTargetAppealRemovalAffirmation =>
      "CinderActionTargetAppealRemovalAffirmation"
  | CinderActionNotImplemented => "CinderActionNotImplemented"
  end.

(** *** Class attributes, as written in each class body *)

Definition all_targets : list Kind :=
  [Addon_; UserProfile_; Collection_; Rating_].

Definition own_valid_targets (c : Class) : option (list Kind) :=
  match c with
  | CinderAction => Some []
  | CinderActionBanUser => Some [UserProfile_]
  | CinderActionDisableAddon => Some [Addon_]
  | CinderActionEscalateAddon => Some [Addon_]
  | CinderActionDeleteCollection => Some [Collection_]
  | CinderActionDeleteRating => Some [Rating_]
  | CinderActionTargetAppealApprove => Some all_targets
  | CinderActionApproveNoAction => Some all_targets
  | CinderActionApproveInitialDecision => Some all_targets
  | CinderActionTargetAppealRemovalAffirmation => Some all_targets
  | _ => None
  end.

Definition own_reporter_template_path (c : Class)
  : option (option string) :=
  match c with
  | CinderAction => Some None
  | CinderActionBanUser =>
      Some (Some "abuse/emails/reporter_takedown_user.txt")
  | CinderActionDisableAddon =>
      Some (Some "abuse/emails/reporter_takedown_addon.txt")
  | CinderActionRejectVersionDelayed =>
      Some (Some "abuse/emails/reporter_takedown_addon_delayed.txt")
  | CinderActionDeleteCollection =>
      Some (Some "abuse/emails/reporter_takedown_collection.txt")
  | CinderActionDeleteRating =>
      Some (Some "abuse/emails/reporter_takedown_rating.txt")
  | CinderActionApproveNoAction =>
      Some (Some "abuse/emails/reporter_ignore.txt")
  | CinderActionApproveInitialDecision =>
      Some (Some "abuse/emails/reporter_ignore.txt")
  | _ => None
  end.

Definition own_reporter_appeal_template_path (c : Class)
  : option (option string) :=
  match c with
  | CinderAction => Some None
  | CinderActionBanUser =>
      Some (Some "abuse/emails/reporter_appeal_takedown.txt")
  | CinderActionDisableAddon =>
      Some (Some "abuse/emails/reporter_appeal_takedown.txt")
  | CinderActionRejectVersionDelayed =>
      Some (Some "abuse/emails/reporter_appeal_takedown_delayed.txt")
  | CinderActionDeleteCollection =>
      Some (Some "abuse/emails/reporter_appeal_takedown.txt")
  | CinderActionDeleteRating =>
      Some (Some "abuse/emails/reporter_appeal_takedown.txt")
  | CinderActionApproveNoAction =>
      Some (Some "abuse/emails/reporter_appeal_ignore.txt")
  | CinderActionApproveInitialDecision =>
      Some (Some "abuse/emails/reporter_appeal_ignore.txt")
  | _ => None
  end.

Definition valid_targets (c : Class) : list Kind :=
  default [] (resolve own_valid_targets c).

Definition reporter_template_path (c : Class) : option string :=
  default None (resolve own_reporter_template_path c).

Definition reporter_appeal_template_path (c : Class) : option string :=
  default None (resolve own_reporter_appeal_template_path c).

(** ** Instances *)

(** [addon_version] is [None] when [__init__] did not set the attribute
    and [Some None] when it set it to [None]. *)
Record Action := {
  cls : Class;
  decision : CinderDecision;
  addon_version : option (option Version)
}.

Section Actions.
Context `{Collaborators}.

(** *** [CinderAction.__init__] *)

Definition init (c : Class) (d : CinderDecision) : M Action :=
  t ← get_target;
  let attr :=
    match t with
    | TAddon a =>
        Some (match current_version a with
              | Some v => Some v
              | None => find_latest_version a
              end)
    | _ => None
    end in
  if isinstance t (valid_targets c)
  then mret {| cls := c; decision := d; addon_version := attr |}
  else raise ImproperlyConfigured.

(** *** [log_create] and the model methods, as steps of [M] *)

Definition log_create (action : LogAction) (args : list LogArgument)
    (details : option string) : M ActivityLog :=
  λ w,
    let e := {| log_id := Z.of_nat (length (activity_log w)) + 1;
                log_action := action;
                log_arguments := args;
                log_details := details |} in
    (add_log e w, Returned e).

Definition get_flags : M (list NeedsHumanReview) :=
  λ w, (w, Returned (flags w)).

(** [NeedsHumanReview(...).save(_no_automatic_activity_log=True)] *)
Definition nhr_save (row : NeedsHumanReview) : M unit :=
  λ w, (add_call (call_nhr_save row) (set_flags (flags w ++ [row]) w),
        Returned tt).

Definition flag_latest (a : Addon) (reason : Z)
    (ignore_reviewed unique_reason skip_activity_log : bool)
  : M (list Version) :=
  λ w,
    let '(fl, vs) :=
      set_needs_human_review_on_latest_versions a (flags w) reason
        ignore_reviewed unique_reason skip_activity_log in
    (add_call
       (call_set_needs_human_review_on_latest_versions reason
          ignore_reviewed unique_reason skip_activity_log)
       (set_flags fl w),
     Returned vs).

(** *** [CinderActionEscalateAddon.flag_for_human_review] *)

(** [set(abusereport_set.values_list('addon_version', flat=True))] *)
Definition reported_versions (d : CinderDecision) : list (option string) :=
  remove_dups (report_addon_version <$> reports d).

(** The flags of one version: the rows the relation [needshumanreview]
    reaches from it. *)
Definition flags_of (fl : list NeedsHumanReview) (v : Version)
  : list NeedsHumanReview :=
  filter (λ f, version_id (nhr_version f) = version_id v) fl.

(** [exclude(needshumanreview__reason=reason,
    needshumanreview__is_active=True)].  The two conditions span a
    multi-valued relation, and Django's [exclude] does not tie them to one
    row: a version is left out when one of its flags has the reason and
    one of its flags, that one or another, is active. *)
Definition excluded (reason : Z) (fl : list NeedsHumanReview)
    (v : Version) : bool :=
  existsb (λ f, bool_decide (nhr_reason f = reason)) (flags_of fl v)
  && existsb nhr_is_active (flags_of fl v).

(** The queryset [versions.filter(version__in=...).exclude(...)] turned
    into a set. *)
Definition unflagged_reported_versions (a : Addon)
    (fl : list NeedsHumanReview) (reason : Z)
    (reported : list (option string)) : list Version :=
  remove_dups
    (filter (λ v, Some (version v) ∈ reported
                  ∧ excluded reason fl v = false)
            (versions a)).

(** [NeedsHumanReview(version=version, reason=reason, is_active=True)] *)
Definition new_flag (reason : Z) (v : Version) : NeedsHumanReview :=
  {| nhr_version := v; nhr_reason := reason; nhr_is_active := true |}.

(** The [for version in version_objs] loop, over the versions in the
    order the set yields them; the result is the last [nhr_object]
    bound. *)
Fixpoint flag_each (reason : Z) (vs : list Version)
    (nhr_object : option NeedsHumanReview)
  : M (option NeedsHumanReview) :=
  match vs with
  | [] => mret nhr_object
  | v :: vs' =>
      let row := new_flag reason v in
      nhr_save row;;
      flag_each reason vs' (Some row)
  end.

(** [sorted(version_objs, key=lambda v: v.id)] *)
Definition id_le (v1 v2 : Version) : Prop :=
  (version_id v1 ≤ version_id v2)%Z.

#[global] Instance id_le_dec : RelDecision id_le.
Proof. intros v1 v2. unfold id_le. apply _. Defined.

Definition sorted_by_id (vs : list Version) : list Version :=
  merge_sort id_le vs.

(** The condition of the [if] that flags the latest versions. *)
Definition fallback_condition (version_objs : list Version)
    (reported : list (option string)) : bool :=
  bool_decide (length version_objs ≠ length reported)
  || bool_decide (length reported = 0%nat).

Definition flag_for_human_review (self : Action)
  : M (option ActivityLog) :=
  if negb (switch_is_active "dsa-cinder-escalations-review") then
    record call_log_info;;
    mret None
  else
    t ← get_target;
    match t with
    | TAddon a =>
        if is_third_party_initiated (decision self) then
          let reason := REASON_CINDER_ESCALATION in
          let reported := reported_versions (decision self) in
          fl ← get_flags;
          let version_objs :=
            if bool_decide (reported ≠ [])
            then unflagged_reported_versions a fl reason reported
            else [] in
          nhr_object ←
            flag_each reason (iteration_order version_objs) None;
          version_objs ←
            (if fallback_condition version_objs reported then
               latest ← flag_latest a reason false true true;
               mret (remove_dups (version_objs ++ latest))
             else mret version_objs);
          match version_objs with
          | [] => mret None
          | v0 :: _ =>
              let version_objs :=
                sorted_by_id (iteration_order version_objs) in
              (* [version_objs[-1]]; the list is not empty here *)
              let newest := default v0 (last version_objs) in
              let nhr_object :=
                default (new_flag reason newest) nhr_object in
              log_create NEEDS_HUMAN_REVIEW_CINDER
                (ArgVersion <$> version_objs)
                (Some (get_reason_display (nhr_reason nhr_object)));;
              mret None
          end
        else mret None
    | _ => mret None
    end.

(** *** [process_action], class by class *)

(** [self.target] is read with [get_target].  A model method called on
    it ([force_disable], [delete], ...) changes that object; the ban and
    its reversal go through [UserProfile.objects.filter(pk=...)] instead
    and change the row, so that [self.target.banned] stays what it was.

    A target of a kind the body does not expect has none of the attributes
    it reads: that is an [AttributeError], and no instance gets there,
    [init] having checked the kind. *)

Definition CinderAction_process_action (self : Action)
  : M (option ActivityLog) :=
  raise NotImplementedError.

Definition CinderActionBanUser_process_action (self : Action)
  : M (option ActivityLog) :=
  t ← get_target;
  match t with
  | TUserProfile u =>
      (if negb (banned u) then
         record (call_ban_and_disable_related_content (user_pk u));;
         update_users_with_pk (user_pk u) ban_and_disable_related_content
       else mret tt);;
      mret None
  | _ => raise AttributeError
  end.

Definition CinderActionDisableAddon_process_action (self : Action)
  : M (option ActivityLog) :=
  t ← get_target;
  match t with
  | TAddon a =>
      if bool_decide (status a ≠ STATUS_DISABLED) then
        record call_force_disable;;
        put_target (TAddon (force_disable a));;
        t' ← get_target;
        e ← log_create FORCE_DISABLE [ArgTarget t'] None;
        mret (Some e)
      else mret None
  | _ => raise AttributeError
  end.

Definition CinderActionEscalateAddon_process_action (self : Action)
  : M (option ActivityLog) :=
  flag_for_human_review self.

Definition CinderActionDeleteCollection_process_action (self : Action)
  : M (option ActivityLog) :=
  t ← get_target;
  match t with
  | TCollection c =>
      if negb (collection_deleted c) then
        record call_delete;;
        put_target (TCollection (delete_collection c));;
        t' ← get_target;
        e ← log_create COLLECTION_DELETED [ArgTarget t'] None;
        mret (Some e)
      else mret None
  | _ => raise AttributeError
  end.

Definition CinderActionDeleteRating_process_action (self : Action)
  : M (option ActivityLog) :=
  t ← get_target;
  match t with
  | TRating r =>
      (if negb (rating_deleted r) then
         record call_delete;;
         put_target (TRating (delete_rating r))
       else mret tt);;
      mret None
  | _ => raise AttributeError
  end.

Definition CinderActionTargetAppealApprove_process_action (self : Action)
  : M (option ActivityLog) :=
  t ← get_target;
  match t with
  | TAddon a =>
      (if bool_decide (status a = STATUS_DISABLED) then
         record call_force_enable;;
         put_target (TAddon (force_enable a))
       else mret tt);;
      mret None
  | TUserProfile u =>
      (if banned u then
         record (call_unban_and_reenable_related_content (user_pk u));;
         update_users_with_pk (user_pk u)
           unban_and_reenable_related_content
       else mret tt);;
      mret None
  | TCollection c =>
      (if collection_deleted c then
         record call_undelete;;
         put_target (TCollection (undelete_collection c));;
         t' ← get_target;
         log_create COLLECTION_UNDELETED [ArgTarget t'] None;;
         mret tt
       else mret tt);;
      mret None
  | TRating r =>
      (if rating_deleted r then
         record call_undelete;;
         put_target (TRating (undelete_rating r))
       else mret tt);;
      mret None
  end.

Definition return_None (self : Action) : M (option ActivityLog) :=
  mret None.

(** The [process_action] each class body defines itself, if any. *)
Definition own_process_action (c : Class)
  : option (Action → M (option ActivityLog)) :=
  match c with
  | CinderAction => Some CinderAction_process_action
  | CinderActionBanUser => Some CinderActionBanUser_process_action
  | CinderActionDisableAddon =>
      Some CinderActionDisableAddon_process_action
  | CinderActionEscalateAddon =>
      Some CinderActionEscalateAddon_process_action
  | CinderActionDeleteCollection =>
      Some CinderActionDeleteCollection_process_action
  | CinderActionDeleteRating =>
      Some CinderActionDeleteRating_process_action
  | CinderActionTargetAppealApprove =>
      Some CinderActionTargetAppealApprove_process_action
  | CinderActionApproveNoAction => Some return_None
  | CinderActionApproveInitialDecision => Some return_None
  | CinderActionTargetAppealRemovalAffirmation => Some return_None
  | CinderActionNotImplemented => Some return_None
  | CinderActionRejectVersion
  | CinderActionRejectVersionDelayed
  | CinderActionOverrideApprove => None
  end.

(** [CinderActionRejectVersion] is the one class with a method called
    [process]. *)
Definition own_process (c : Class)
  : option (Action → M (option ActivityLog)) :=
  match c with
  | CinderActionRejectVersion => Some (λ _, raise NotImplementedError)
  | _ => None
  end.

(** A call [self.name()]: the method found along the [mro], or an
    [AttributeError] when no class has it. *)
Definition call_method {A}
    (own : Class → option (Action → M A)) (self : Action) : M A :=
  match resolve own (cls self) with
  | Some method => method self
  | None => raise AttributeError
  end.

Definition process_action (self : Action) : M (option ActivityLog) :=
  call_method own_process_action self.

Definition process (self : Action) : M (option ActivityLog) :=
  call_method own_process self.

(** *** [get_owners] *)

Definition owners_per_target_kind (self : Action)
  : M (list UserProfile) :=
  t ← get_target;
  mret match t with
       | TAddon a => authors a
       | TUserProfile u => [u]
       | TCollection c => [collection_author c]
       | TRating r => [rating_user r]
       end.

Definition no_owners (self : Action) : M (list UserProfile) := mret [].

Definition CinderActionBanUser_get_owners (self : Action)
  : M (list UserProfile) :=
  t ← get_target;
  match t with
  | TUserProfile u => mret [u]
  | _ => raise AttributeError
  end.

Definition CinderActionDisableAddon_get_owners (self : Action)
  : M (list UserProfile) :=
  t ← get_target;
  match t with
  | TAddon a => mret (authors a)
  | _ => raise AttributeError
  end.

Definition CinderActionDeleteCollection_get_owners (self : Action)
  : M (list UserProfile) :=
  t ← get_target;
  match t with
  | TCollection c => mret [collection_author c]
  | _ => raise AttributeError
  end.

Definition CinderActionDeleteRating_get_owners (self : Action)
  : M (list UserProfile) :=
  t ← get_target;
  match t with
  | TRating r => mret [rating_user r]
  | _ => raise AttributeError
  end.

Definition own_get_owners (c : Class)
  : option (Action → M (list UserProfile)) :=
  match c with
  | CinderAction => Some (λ _, raise NotImplementedError)
  | CinderActionBanUser => Some CinderActionBanUser_get_owners
  | CinderActionDisableAddon => Some CinderActionDisableAddon_get_owners
  | CinderActionEscalateAddon => Some no_owners
  | CinderActionDeleteCollection =>
      Some CinderActionDeleteCollection_get_owners
  | CinderActionDeleteRating => Some CinderActionDeleteRating_get_owners
  | CinderActionTargetAppealApprove => Some owners_per_target_kind
  | CinderActionApproveNoAction => Some no_owners
  | CinderActionApproveInitialDecision => Some owners_per_target_kind
  | CinderActionTargetAppealRemovalAffirmation =>
      Some owners_per_target_kind
  | CinderActionNotImplemented => Some no_owners
  | CinderActionRejectVersion
  | CinderActionRejectVersionDelayed
  | CinderActionOverrideApprove => None
  end.

Definition get_owners (self : Action) : M (list UserProfile) :=
  call_method own_get_owners self.

End Actions.

(** ** The notifier *)

(** Truth value of a value that is [None] or a string. *)
Definition truthy (s : option string) : bool :=
  match s with
  | None => false
  | Some s' => negb (bool_decide (s' = EmptyString))
  end.

(** [a or b] on such values. *)
Definition or_else (a : option string) (b : string) : string :=
  match a with
  | Some s => if bool_decide (s = EmptyString) then b else s
  | None => b
  end.

(** [tpl.format(a, b)] for the empty replacement field.  The messages
    formatted here have as many fields as arguments; a field left without
    an argument is kept as it is. *)
Fixpoint format (tpl : string) (args : list string) : string :=
  match tpl with
  | EmptyString => EmptyString
  | String "{"%char (String "}"%char rest) =>
      match args with
      | a :: args' => a +:+ format rest args'
      | [] => "{}" +:+ format rest []
      end
  | String ch rest => String ch (format rest args)
  end.

Definition double_quote : string := String "034"%char EmptyString.

Definition POLICY_DOCUMENT_URL : string :=
  "https://extensionworkshop.com/documentation/publish/add-on-policies/".

Section Notifier.
Context `{Collaborators}.

(** [lang] is the language active when the lazy translation is forced. *)
Definition get_target_name (lang : string) (t : Target) : string :=
  match t with
  | TRating r =>
      format
        (gettext lang (double_quote +:+ "{}" +:+ double_quote +:+ " for {}"))
        [str_of_target t; addon_name (rating_addon r)]
  | TAddon a => addon_name a
  | TUserProfile u => user_name u
  | TCollection c => collection_name c
  end.

Definition get_target_type (lang : string) (t : Target) : string :=
  match t with
  | TAddon a => get_type_display a
  | TUserProfile _ => gettext lang "User profile"
  | TCollection _ => gettext lang "Collection"
  | TRating _ => gettext lang "Rating"
  end.

Definition owner_template_path (self : Action) : string :=
  "abuse/emails/" +:+ class_name (cls self) +:+ ".txt".

(** The condition under which [notify_owners] adds [appeal_url]. *)
Definition owner_can_appeal (d : CinderDecision) : bool :=
  can_be_appealed d false None
  && (is_third_party_initiated d || switch_is_active "dsa-appeals-review").

Definition appeal_author_url (d : CinderDecision) : string :=
  absolutify
    (reverse_url "abuse.appeal_author"
       [("decision_cinder_id", cinder_id d)]).

(** The context [notify_owners] renders the owner template with. *)
Definition owner_context (d : CinderDecision) (t : Target)
    (target_name reference : string) (policy_text : option string)
    (extra_context : option (gmap string Value)) : gmap string Value :=
  let context_dict : gmap string Value :=
    default ∅ extra_context ∪
    list_to_map
      [("additional_reasoning", VStr (or_else (notes d) EmptyString));
       ("is_third_party_initiated", VBool (is_third_party_initiated d));
       ("name", VStr target_name);
       ("policy_document_url", VStr POLICY_DOCUMENT_URL);
       ("reference_id", VStr reference);
       ("target", VTarget t);
       ("target_url", VStr (absolutify (get_url_path t)));
       ("type", VStr (get_target_type get_language t));
       ("SITE_URL", VStr SITE_URL)] in
  let context_dict :=
    match policy_text with
    | Some text => <["manual_policy_text" := VStr text]> context_dict
    | None => <["policies" := VPolicies (policies d)]> context_dict
    end in
  if owner_can_appeal d
  then <["appeal_url" := VStr (appeal_author_url d)]> context_dict
  else context_dict.

(** [rand] is the value [random.randrange(100000)] would draw. *)
Definition notify_owners (self : Action) (log_entry_id : option Z)
    (policy_text : option string)
    (extra_context : option (gmap string Value)) (rand : Z) : M unit :=
  owners ← get_owners self;
  if bool_decide (owners = []) then mret tt
  else
    let path := owner_template_path self in
    record (call_get_template path);;
    t ← get_target;
    let target_name := get_target_name get_language t in
    let reference := "ref:" +:+ reference_id (decision self) in
    let context_dict :=
      owner_context (decision self) t target_name reference
        policy_text extra_context in
    let subject :=
      "Mozilla Add-ons: " +:+ target_name +:+ " [" +:+ reference +:+ "]" in
    record (call_render path context_dict);;
    let message := render path context_dict in
    match addon_version self with
    | Some (Some v) =>
        let unique_id :=
          match log_entry_id with
          | Some i => if bool_decide (i = 0) then rand else i
          | None => rand
          end in
        record (call_send_activity_mail subject message v owners
                  ADDONS_EMAIL unique_id)
    | _ =>
        record (call_send_mail subject message (user_email <$> owners))
    end.

(** The address a reporter is written to. *)
Definition email_address_of (abuse_report : AbuseReport)
  : option string :=
  match reporter abuse_report with
  | Some user => user_email user
  | None => reporter_email abuse_report
  end.

Definition reporter_reference (d : CinderDecision)
    (abuse_report : AbuseReport) : string :=
  "ref:" +:+ reference_id d +:+ "/" +:+ pretty (report_id abuse_report).

Definition appeal_reporter_url (d : CinderDecision)
    (abuse_report : AbuseReport) : string :=
  absolutify
    (reverse_url "abuse.appeal_reporter"
       [("abuse_report_id", pretty (report_id abuse_report));
        ("decision_cinder_id", cinder_id d)]).

(** The context one reporter's message is rendered with. *)
Definition reporter_context (d : CinderDecision) (t : Target)
    (lang : string) (abuse_report : AbuseReport) : gmap string Value :=
  let context_dict : gmap string Value :=
    list_to_map
      [("name", VStr (get_target_name lang t));
       ("policy_document_url", VStr POLICY_DOCUMENT_URL);
       ("reference_id", VStr (reporter_reference d abuse_report));
       ("target_url", VStr (absolutify (get_url_path t)));
       ("type", VStr (get_target_type lang t));
       ("SITE_URL", VStr SITE_URL)] in
  if can_be_appealed d true (Some abuse_report)
  then <["appeal_url" := VStr (appeal_reporter_url d abuse_report)]>
         context_dict
  else context_dict.

(** The body of the loop of [notify_reporters], for one report. *)
Definition notify_reporter (self : Action) (path : string)
    (abuse_report : AbuseReport) : M unit :=
  let email_address := email_address_of abuse_report in
  if negb (truthy email_address) then mret tt
  else
    let lang := or_else (application_locale abuse_report) LANGUAGE_CODE in
    t ← get_target;
    let target_name := get_target_name lang t in
    let reference := reporter_reference (decision self) abuse_report in
    let subject :=
      format (gettext lang "Mozilla Add-ons: {} [{}]")
        [target_name; reference] in
    let context_dict := reporter_context (decision self) t lang abuse_report in
    record (call_render path context_dict);;
    let message := render path context_dict in
    record (call_send_mail subject message [email_address]).

Fixpoint notify_each (self : Action) (path : string)
    (reporter_abuse_reports : list AbuseReport) : M unit :=
  match reporter_abuse_reports with
  | [] => mret tt
  | abuse_report :: rest =>
      notify_reporter self path abuse_report;;
      notify_each self path rest
  end.

Definition notify_reporters (self : Action)
    (reporter_abuse_reports : list AbuseReport) (is_appeal : bool)
  : M unit :=
  let template :=
    if negb is_appeal
    then reporter_template_path (cls self)
    else reporter_appeal_template_path (cls self) in
  match template with
  | Some path =>
      if bool_decide (path = EmptyString)
         || bool_decide (reporter_abuse_reports = [])
      then mret tt
      else
        record (call_get_template path);;
        notify_each self path reporter_abuse_reports
  | None => mret tt
  end.

End Notifier.

(** ** A reference implementation of the collaborators *)

Definition with_banned (b : bool) (u : UserProfile) : UserProfile :=
  {| user_pk := user_pk u; user_name := user_name u;
     user_email := user_email u; banned := b |}.

Definition with_status (st : Z) (a : Addon) : Addon :=
  {| addon_pk := addon_pk a; addon_name := addon_name a; status := st;
     authors := authors a; current_version := current_version a;
     versions := versions a |}.

Definition with_collection_deleted (b : bool) (c : Collection)
  : Collection :=
  {| collection_name := collection_name c; collection_deleted := b;
     collection_author := collection_author c |}.

Definition with_rating_deleted (b : bool) (r : Rating) : Rating :=
  {| rating_pk := rating_pk r; rating_deleted := b;
     rating_user := rating_user r; rating_addon := rating_addon r |}.

(** Flag the newest version of the add-on, unless [unique_reason] is set
    and it already carries an active flag with that reason. *)
Definition flag_newest_version (a : Addon) (fl : list NeedsHumanReview)
    (reason : Z) (ignore_reviewed unique_reason skip_activity_log : bool)
  : list NeedsHumanReview * list Version :=
  match last (versions a) with
  | None => (fl, [])
  | Some v =>
      if unique_reason
         && existsb (λ f, bool_decide (version_id (nhr_version f)
                                       = version_id v)
                          && bool_decide (nhr_reason f = reason)
                          && nhr_is_active f) fl
      then (fl, [])
      else ((fl ++ [{| nhr_version := v; nhr_reason := reason;
                       nhr_is_active := true |}])%list, [v])
  end.

(** Modelled from the spec: the entity store, the feature gate, the
    appeal rule, the settings, the URL builder, the template renderer and
    gettext are collaborators that [utils.py] imports; their code is not
    part of the file.  The transitions follow the variant catalogue
    (active to banned, enabled to force-disabled, existing to soft-deleted,
    and back), the fallback helper flags the latest version and enforces
    uniqueness, a set is iterated from its last element to its first, the
    gate is the set [switches] of active switch names and [appeal] is the
    decision's appeal rule. *)
Definition reference_collaborators (switches : list string)
    (appeal : CinderDecision → bool → option AbuseReport → bool)
  : Collaborators :=
  {| STATUS_DISABLED := 5;
     REASON_CINDER_ESCALATION := 13;
     get_reason_display := λ _, "Escalated for an abuse report";
     ban_and_disable_related_content := with_banned true;
     unban_and_reenable_related_content := with_banned false;
     force_disable := with_status 5;
     force_enable := with_status 4;
     delete_collection := with_collection_deleted true;
     undelete_collection := with_collection_deleted false;
     delete_rating := with_rating_deleted true;
     undelete_rating := with_rating_deleted false;
     find_latest_version := λ a, last (versions a);
     set_needs_human_review_on_latest_versions := flag_newest_version;
     iteration_order := reverse;
     switch_is_active := λ name, bool_decide (name ∈ switches);
     can_be_appealed := appeal;
     SITE_URL := "https://addons.example";
     ADDONS_EMAIL := "addons@example";
     LANGUAGE_CODE := "en-US";
     absolutify := λ path, "https://addons.example" +:+ path;
     reverse_url := λ name kwargs,
       "/" +:+ name +:+ "/" +:+ String.concat "/" (kwargs.*2);
     render := λ path context,
       match context !! "appeal_url" with
       | Some (VStr url) => path +:+ " appeal: " +:+ url
       | _ => path
       end;
     get_language := "en-US";
     gettext := λ lang msgid, msgid;
     get_url_path := λ t, "/target/";
     get_type_display := λ a, "Extension";
     str_of_target := λ t, "rating" |}.

#[global] Instance reference_laws switches appeal :
  @EntityStoreLaws (reference_collaborators switches appeal).
Proof. by split. Qed.

#[global] Instance reference_iteration switches appeal :
  @SetIterationLaws (reference_collaborators switches appeal).
Proof. split. intros vs. apply reverse_Permutation. Qed.

(** A site with every switch off and no decision open to appeal. *)
Definition quiet_site : Collaborators :=
  reference_collaborators [] (λ _ _ _, false).

(** Sample data. *)

Definition alice : UserProfile :=
  {| user_pk := 1; user_name := "alice";
     user_email := Some "alice@example"; banned := false |}.

Definition bob : UserProfile :=
  {| user_pk := 2; user_name := "bob";
     user_email := Some "bob@example"; banned := false |}.

Definition nameless : UserProfile :=
  {| user_pk := 3; user_name := "carol";
     user_email := Some EmptyString; banned := false |}.

Definition v1 : Version := {| version_id := 10; version := "1.0" |}.
Definition v2 : Version := {| version_id := 20; version := "2.0" |}.
Definition v3 : Version := {| version_id := 30; version := "3.0" |}.

Definition sample_addon : Addon :=
  {| addon_pk := 7; addon_name := "Tab Sorter"; status := 4;
     authors := [alice; bob]; current_version := Some v3;
     versions := [v1; v2; v3] |}.

Definition sample_collection : Collection :=
  {| collection_name := "Favourites"; collection_deleted := false;
     collection_author := alice |}.

Definition sample_rating : Rating :=
  {| rating_pk := 5; rating_deleted := false; rating_user := bob;
     rating_addon := sample_addon |}.

(** The rows of [UserProfile.objects] a world starts with: the account
    itself when the target is one. *)
Definition rows_of (t : Target) : gmap Z UserProfile :=
  match t with
  | TUserProfile u => {[ user_pk u := u ]}
  | _ => ∅
  end.

Definition world_of (t : Target) : World :=
  {| target := t; users := rows_of t; flags := [];
     activity_log := []; calls := [] |}.

Definition report (id : Z) (user : option UserProfile)
    (email : option string) (ver : option string) : AbuseReport :=
  {| report_id := id; reporter := user; reporter_email := email;
     application_locale := None; report_addon_version := ver |}.

Definition sample_decision (third_party : bool)
    (rs : list AbuseReport) : CinderDecision :=
  {| cinder_id := "d-1"; reference_id := "ABC123"; notes := None;
     is_third_party_initiated := third_party; policies := [];
     reports := rs |}.

Definition action_of (c : Class) (d : CinderDecision)
    (v : option (option Version)) : Action :=
  {| cls := c; decision := d; addon_version := v |}.

(** ** Observations on the journal of calls *)

(** The calls made between an earlier world and a later one. *)
Definition calls_since (w w' : World) : list Call :=
  drop (length (calls w)) (calls w').

Definition rendered_contexts (cs : list Call)
  : list (gmap string Value) :=
  omap (λ c, match c with
             | call_render _ context => Some context
             | _ => None
             end) cs.

Definition sent_mail_recipients (cs : list Call)
  : list (list (option string)) :=
  omap (λ c, match c with
             | call_send_mail _ _ recipient_list => Some recipient_list
             | _ => None
             end) cs.

Definition saved_flags (cs : list Call) : list NeedsHumanReview :=
  omap (λ c, match c with
             | call_nhr_save row => Some row
             | _ => None
             end) cs.

(** The world after the rows [rows] were saved one by one. *)
Definition after_saving (rows : list NeedsHumanReview) (w : World)
  : World :=
  {| target := target w;
     users := users w;
     flags := flags w ++ rows;
     activity_log := activity_log w;
     calls := calls w ++ (call_nhr_save <$> rows) |}.

(** A site where escalations are flagged for human review. *)
Definition escalation_site : Collaborators :=
  reference_collaborators ["dsa-cinder-escalations-review"]
    (λ _ _ _, false).

(** Three reports name versions 1.0, 2.0 and 9.0 of the sample add-on;
    2.0 is already flagged and 9.0 does not exist. *)
Definition escalation_decision : CinderDecision :=
  sample_decision true
    [report 1 None None (Some "1.0"); report 2 None None (Some "2.0");
     report 3 None None (Some "9.0")].

Definition escalation_world : World :=
  {| target := TAddon sample_addon;
     users := ∅;
     flags := [new_flag 13 v2];
     activity_log := [];
     calls := [] |}.

(** The variants the catalogue lists with a transition of the target. *)
Definition state_mutating : list Class :=
  [CinderActionBanUser; CinderActionDisableAddon;
   CinderActionDeleteCollection; CinderActionDeleteRating;
   CinderActionTargetAppealApprove].


Definition takedown : Action :=
  action_of CinderActionDisableAddon (sample_decision true [])
    (Some (Some v3)).

(** The world after further calls were journalled. *)
Definition add_calls (cs : list Call) (w : World) : World :=
  {| target := target w; users := users w; flags := flags w;
     activity_log := activity_log w; calls := calls w ++ cs |}.

Section Journal.
Context `{Collaborators}.

(** The language one report's message is written in. *)
Definition report_language (abuse_report : AbuseReport) : string :=
  or_else (application_locale abuse_report) LANGUAGE_CODE.

(** The calls one report gives rise to: none without an address, else
    one rendering and one mail. *)
Definition report_calls (self : Action) (path : string) (t : Target)
    (abuse_report : AbuseReport) : list Call :=
  if truthy (email_address_of abuse_report) then
    let lang := report_language abuse_report in
    let context_dict :=
      reporter_context (decision self) t lang abuse_report in
    [call_render path context_dict;
     call_send_mail
       (format (gettext lang "Mozilla Add-ons: {} [{}]")
          [get_target_name lang t;
           reporter_reference (decision self) abuse_report])
       (render path context_dict)
       [email_address_of abuse_report]]
  else [].

(** The context of the one rendering of [notify_owners]. *)
Definition rendered_for_owners (self : Action)
    (policy_text : option string)
    (extra_context : option (gmap string Value)) (w : World)
  : gmap string Value :=
  owner_context (decision self) (target w)
    (get_target_name get_language (target w))
    ("ref:" +:+ reference_id (decision self))
    policy_text extra_context.

End Journal.

(** The target as the database holds it.  An account is the row of
    [UserProfile.objects] under the primary key of [self.target]; an
    add-on, a collection or a rating is written by the model methods
    called on the object itself. *)
Definition stored_target (w : World) : Target :=
  match target w with
  | TUserProfile u => TUserProfile (default u (users w !! user_pk u))
  | t => t
  end.

(** [self.target] holds what the database holds. *)
Definition target_as_stored (w : World) : Prop :=
  match target w with
  | TUserProfile u => users w !! user_pk u = Some u
  | _ => True
  end.

(** The world in which [decision.target] has been read again from the
    database. *)
Definition reloaded (w : World) : World := set_target (stored_target w) w.

(** The reporter template [notify_reporters] selects. *)
Definition reporter_template (c : Class) (is_appeal : bool)
  : option string :=
  if negb is_appeal
  then reporter_template_path c
  else reporter_appeal_template_path c.

(** The reports [notify_reporters] writes to: those with an address, when
    the variant has a template for the kind of notification. *)
Definition notified_reports (c : Class) (is_appeal : bool)
    (reporter_abuse_reports : list AbuseReport) : list AbuseReport :=
  if truthy (reporter_template c is_appeal)
  then filter (λ r, truthy (email_address_of r)) reporter_abuse_reports
  else [].

(** The recipients of an outcome, by kind of target. *)
Definition owners_of_target (t : Target) : list UserProfile :=
  match t with
  | TAddon a => authors a
  | TUserProfile u => [u]
  | TCollection c => [collection_author c]
  | TRating r => [rating_user r]
  end.

(** The classes whose [get_owners] returns the empty tuple. *)
Definition silent_classes : list Class :=
  [CinderActionEscalateAddon; CinderActionApproveNoAction;
   CinderActionNotImplemented].

(** The classes that take content down. *)
Definition takedown_classes : list Class :=
  [CinderActionBanUser; CinderActionDisableAddon;
   CinderActionDeleteCollection; CinderActionDeleteRating].

(** The classes that reinstate content. *)
Definition reinstating_classes : list Class :=
  [CinderActionTargetAppealApprove; CinderActionOverrideApprove].

(** The status the guards of [process_action] test, by kind of target. *)
Definition taken_down `{Collaborators} (t : Target) : bool :=
  match t with
  | TAddon a => bool_decide (status a = STATUS_DISABLED)
  | TUserProfile u => banned u
  | TCollection c => collection_deleted c
  | TRating r => rating_deleted r
  end.

(** The status a state-mutating variant leaves its target in: restored
    for the approval of an appeal, taken down for the others. *)
Definition in_end_status `{Collaborators} (c : Class) (t : Target)
  : bool :=
  match c with
  | CinderActionTargetAppealApprove | CinderActionOverrideApprove =>
      negb (taken_down t)
  | _ => taken_down t
  end.

(** The version the constructor attaches to an add-on. *)
Definition version_for_mail `{Collaborators} (t : Target)
  : option Version :=
  match t with
  | TAddon a =>
      match current_version a with
      | Some v => Some v
      | None => find_latest_version a
      end
  | _ => None
  end.

Definition sent_activity_mails (cs : list Call)
  : list (Version * list UserProfile * string * Z) :=
  omap (λ c, match c with
             | call_send_activity_mail _ _ v recipients from_email
                 unique_id => Some (v, recipients, from_email, unique_id)
             | _ => None
             end) cs.

Definition loaded_templates (cs : list Call) : list string :=
  omap (λ c, match c with
             | call_get_template path => Some path
             | _ => None
             end) cs.

Definition is_template_load (c : Call) : bool :=
  match c with
  | call_get_template _ => true
  | _ => false
  end.

(** The journal without the loading of templates. *)
Definition renderings_and_mails (cs : list Call) : list Call :=
  filter (λ c, is_template_load c = false) cs.

(** No two active flags for the same version and reason. *)
Definition flag_key (f : NeedsHumanReview) : Z * Z :=
  (version_id (nhr_version f), nhr_reason f).

Definition active_flags (fl : list NeedsHumanReview)
  : list NeedsHumanReview :=
  filter (λ f, nhr_is_active f = true) fl.

Definition flags_unique (fl : list NeedsHumanReview) : Prop :=
  NoDup (flag_key <$> active_flags fl).

(** * Properties *)

Ltac run :=
  repeat (progress (unfold mbind, M_bind, bind, mret, M_ret, ret, raise,
                      get_target, put_target, record, get_flags,
                      update_users_with_pk,
                      log_create, call_method; cbn)).

(** Settles a decidable side condition on concrete data. *)
Ltac decide_it := apply (bool_decide_unpack _); vm_compute; exact I.

(** ** The constructor *)

Section Constructor.
Context `{Collaborators}.

Lemma isinstance_false t ks : kind_of t ∉ ks → isinstance t ks = false.
Proof. intros Hk. unfold isinstance. by rewrite bool_decide_eq_false. Qed.

Lemma isinstance_true t ks : kind_of t ∈ ks → isinstance t ks = true.
Proof. intros Hk. unfold isinstance. by rewrite bool_decide_eq_true. Qed.

Lemma init_world c d w : (init c d w).1 = w.
Proof. unfold init. run. by destruct (isinstance _ _). Qed.

Lemma init_Returned c d w self :
  (init c d w).2 = Returned self →
  cls self = c ∧ decision self = d ∧ kind_of (target w) ∈ valid_targets c.
Proof.
  unfold init. run.
  destruct (isinstance _ _) eqn:Hk; cbn; [|done].
  intros [= <-]. repeat split.
  unfold isinstance in Hk. by apply bool_decide_eq_true in Hk.
Qed.

(** C2.  Whatever the variant and the decision, constructing the variant
    on a target whose kind is outside the variant's [valid_targets] raises
    [ImproperlyConfigured], and the world is handed back as it was: no
    state of the target has been touched and no collaborator called. *)
Theorem init_rejects_invalid_target (c : Class) (d : CinderDecision)
    (w : World) :
  kind_of (target w) ∉ valid_targets c →
  init c d w = (w, Raised ImproperlyConfigured).
Proof.
  intros Hk. unfold init. run. by rewrite isinstance_false.
Qed.

(** C4.  The fallback class declares no [valid_targets] of its own and
    inherits the empty tuple of [CinderAction]: its constructor raises
    [ImproperlyConfigured] on every target, although the two methods of
    the class, had an instance existed, change nothing and name no
    owner. *)
Theorem init_NotImplemented_raises (d : CinderDecision) (w : World) :
  valid_targets CinderActionNotImplemented = []
  ∧ init CinderActionNotImplemented d w = (w, Raised ImproperlyConfigured)
  ∧ (∀ v, process_action (action_of CinderActionNotImplemented d v) w
          = (w, Returned None))
  ∧ (∀ v, get_owners (action_of CinderActionNotImplemented d v) w
          = (w, Returned [])).
Proof.
  split; [done|]. split; [|done].
  unfold init. run. rewrite isinstance_false; [done|].
  cbn. apply not_elem_of_nil.
Qed.

End Constructor.

(** Witness of C2: a ban is asked for an add-on. *)
Lemma init_rejects_invalid_target_witness :
  init (H := quiet_site)
    CinderActionBanUser (sample_decision true [])
    (world_of (TAddon sample_addon))
  = (world_of (TAddon sample_addon), Raised ImproperlyConfigured).
Proof.
  apply init_rejects_invalid_target. decide_it.
Defined.

(** ** Rejected versions *)

Section RejectVersion.
Context `{Collaborators}.

Lemma process_raises_for_reject_version c d v w :
  c = CinderActionRejectVersion ∨ c = CinderActionRejectVersionDelayed →
  process (action_of c d v) w = (w, Raised NotImplementedError).
Proof. by intros [-> | ->]. Qed.

Lemma process_action_of_reject_version c d v w :
  c = CinderActionRejectVersion ∨ c = CinderActionRejectVersionDelayed →
  process_action (action_of c d v) w
  = CinderActionDisableAddon_process_action (action_of c d v) w.
Proof. by intros [-> | ->]. Qed.

(** C3.  The two rejection classes override a method named [process];
    the operation every other class implements and the dispatcher's
    callers use is [process_action], which they inherit from
    [CinderActionDisableAddon].  On an enabled add-on it therefore
    force-disables the target and returns a [FORCE_DISABLE] entry instead
    of failing. *)
Theorem reject_version_process_action_disables (c : Class)
    (d : CinderDecision) (a : Addon) (w : World) :
  c = CinderActionRejectVersion ∨ c = CinderActionRejectVersionDelayed →
  target w = TAddon a →
  status a ≠ STATUS_DISABLED →
  ∃ self w' e,
    init c d w = (w, Returned self)
    ∧ process_action self w = (w', Returned (Some e))
    ∧ target w' = TAddon (force_disable a)
    ∧ calls w' = (calls w ++ [call_force_disable])%list
    ∧ log_action e = FORCE_DISABLE
    ∧ activity_log w' = (activity_log w ++ [e])%list.
Proof.
  intros Hc Ht Hst.
  assert (Hinit : ∃ self, init c d w = (w, Returned self)
                          ∧ process_action self w
                            = CinderActionDisableAddon_process_action
                                self w).
  { unfold init. run. rewrite Ht. cbn.
    destruct Hc as [-> | ->]; cbn; eexists; split; reflexivity. }
  destruct Hinit as (self & Hinit & Hpa).
  exists self. rewrite Hpa.
  unfold CinderActionDisableAddon_process_action. run. rewrite Ht.
  rewrite bool_decide_eq_true_2 by done. cbn.
  eexists _, _. repeat split; try reflexivity. done.
Qed.

End RejectVersion.

(** The failing input of C3: a rejection processed on an approved
    add-on. *)
Lemma reject_version_process_action_disables_witness :
  ∃ self w' e,
    init (H := quiet_site)
      CinderActionRejectVersion (sample_decision true [])
      (world_of (TAddon sample_addon))
    = (world_of (TAddon sample_addon), Returned self)
    ∧ process_action (H := quiet_site) self
        (world_of (TAddon sample_addon))
      = (w', Returned (Some e))
    ∧ target w' = TAddon (with_status 5 sample_addon)
    ∧ calls w' = [call_force_disable]
    ∧ log_action e = FORCE_DISABLE
    ∧ activity_log w' = [e].
Proof.
  apply (reject_version_process_action_disables
           (H := quiet_site)
           CinderActionRejectVersion (sample_decision true [])
           sample_addon (world_of (TAddon sample_addon)));
    [by left | reflexivity | decide_it].
Defined.

(** ** Replaying a decision *)

Section Status.
Context `{Collaborators} `{!EntityStoreLaws}.

Lemma status_enabled_after_force_enable a :
  bool_decide (status (force_enable a) = STATUS_DISABLED) = false.
Proof. apply bool_decide_eq_false_2, status_after_force_enable. Qed.

Lemma status_disabled_after_force_disable a :
  bool_decide (status (force_disable a) ≠ STATUS_DISABLED) = false.
Proof.
  apply bool_decide_eq_false_2. intros Hne.
  apply Hne, status_after_force_disable.
Qed.

Lemma disabled_dec a :
  ¬ status a ≠ STATUS_DISABLED → status a = STATUS_DISABLED.
Proof. intros Hnn. by destruct (decide (status a = STATUS_DISABLED)). Qed.

End Status.

(** Rewrites with what the model methods promise. *)
Ltac laws :=
  rewrite ?banned_after_ban, ?banned_after_unban,
    ?status_enabled_after_force_enable,
    ?status_disabled_after_force_disable,
    ?deleted_after_delete_collection,
    ?deleted_after_undelete_collection, ?deleted_after_delete_rating,
    ?deleted_after_undelete_rating.

(** The pairs of a class of the list in [Hc] and a target it accepts,
    with the body of [process_action] run up to its guard. *)
Ltac variants Hc Hkind Ht :=
  unfold state_mutating, takedown_classes, reinstating_classes in Hc;
  unfold isinstance in Hkind;
  repeat (apply elem_of_cons in Hc as [-> | Hc]);
  [ .. | by apply elem_of_nil in Hc ];
  match goal with
  | w : World |- _ =>
      destruct (target w) as [a | u | co | r] eqn:Ht;
      try (vm_compute in Hkind; discriminate Hkind); clear Hkind
  end;
  unfold process_action; run;
  unfold CinderActionBanUser_process_action,
    CinderActionDisableAddon_process_action,
    CinderActionDeleteCollection_process_action,
    CinderActionDeleteRating_process_action,
    CinderActionTargetAppealApprove_process_action;
  run; rewrite ?Ht; cbn.

(** Splits on the guard of the body in the goal. *)
Ltac on_guard Hg :=
  match goal with
  | |- context [bool_decide (status ?a ≠ STATUS_DISABLED)] =>
      destruct (bool_decide (status a ≠ STATUS_DISABLED)) eqn:Hg;
      [apply bool_decide_eq_true in Hg
      |apply bool_decide_eq_false, disabled_dec in Hg]
  | |- context [bool_decide (status ?a = STATUS_DISABLED)] =>
      destruct (bool_decide (status a = STATUS_DISABLED)) eqn:Hg
  | |- context [banned ?u] => destruct (banned u) eqn:Hg
  | |- context [collection_deleted ?c] =>
      destruct (collection_deleted c) eqn:Hg
  | |- context [rating_deleted ?r] => destruct (rating_deleted r) eqn:Hg
  end; cbn.

Section Idempotence.
Context `{Collaborators} `{!EntityStoreLaws}.

Lemma guard_holds c self w :
  c ∈ state_mutating →
  cls self = c →
  isinstance (target w) (valid_targets c) = true →
  in_end_status c (target w) = true →
  process_action self w = (w, Returned None).
Proof.
  intros Hc Hcls Hkind. destruct self as [c' d v]. cbn in Hcls. subst c'.
  unfold in_end_status.
  variants Hc Hkind Ht; intros Hend;
    try apply negb_true_iff in Hend;
    try apply bool_decide_eq_true in Hend;
    try apply bool_decide_eq_false in Hend;
    rewrite ?Hend; try done.
  - rewrite bool_decide_eq_false_2; [done|]. intros Hne. by apply Hne.
  - by rewrite bool_decide_eq_false_2.
Qed.

Lemma first_run c self w :
  c ∈ state_mutating →
  cls self = c →
  isinstance (target w) (valid_targets c) = true →
  target_as_stored w →
  let out := process_action self w in
  (∃ r1, out.2 = Returned r1)
  ∧ in_end_status c (stored_target out.1) = true
  ∧ kind_of (target out.1) = kind_of (target w)
  ∧ (length (activity_log out.1) ≤ length (activity_log w) + 1)%nat.
Proof.
  intros Hc Hcls Hkind. destruct self as [c' d v]. cbn in Hcls. subst c'.
  unfold target_as_stored, stored_target, in_end_status.
  variants Hc Hkind Ht; intros Hrow; on_guard Hg;
    rewrite ?Ht, ?lookup_alter_eq, ?Hrow; cbn; laws;
    rewrite ?Hg, ?length_app; cbn;
    repeat split; try done; try lia; try (by eexists);
    apply bool_decide_eq_true_2; by rewrite ?status_after_force_disable.
Qed.

(** The ban and its reversal on the instance that has just run: the
    object the guard reads is as it was, and the write is made again. *)
Lemma account_again c self w :
  c ∈ state_mutating →
  cls self = c →
  isinstance (target w) (valid_targets c) = true →
  kind_of (target w) = UserProfile_ →
  target_as_stored w →
  let w1 := (process_action self w).1 in
  let again := process_action self w1 in
  again.2 = Returned None
  ∧ in_end_status c (stored_target again.1) = true
  ∧ activity_log again.1 = activity_log w1
  ∧ calls_since w1 again.1 = calls_since w w1.
Proof.
  intros Hc Hcls Hkind.
  destruct self as [c' d v]. cbn in Hcls. subst c'.
  unfold target_as_stored, stored_target, in_end_status, calls_since.
  variants Hc Hkind Ht; intros Hu Hrow; try discriminate Hu; on_guard Hg;
    rewrite ?Ht; cbn; rewrite ?Hg; cbn;
    rewrite ?Ht, ?lookup_alter_eq, ?Hrow; cbn; laws;
    rewrite ?Hg, ?drop_all; cbn;
    repeat split; try done; by rewrite !drop_app_length.
Qed.

Lemma stored_target_kind w : kind_of (stored_target w) = kind_of (target w).
Proof. unfold stored_target. by destruct (target w). Qed.

Lemma stored_target_other w :
  kind_of (target w) ≠ UserProfile_ → stored_target w = target w.
Proof. unfold stored_target. by destruct (target w). Qed.

Lemma init_returns c d w :
  isinstance (target w) (valid_targets c) = true →
  ∃ self, init c d w = (w, Returned self) ∧ cls self = c.
Proof.
  intros Hkind. unfold init. run.
  destruct (isinstance _ _) eqn:Hk; [by eexists|].
  change (isinstance (target w) (valid_targets c) = false) in Hk.
  congruence.
Qed.

(** C1, as the code has it.  For each of the five state-mutating
    variants, constructed on a target it accepts that is in memory as the
    database holds it: [process_action] returns and the target is stored
    in the end status of the variant.  Called again on the same instance
    it returns no entry, the stored status is the same and the activity
    log has not grown, so at most one entry was written in all; on an
    add-on, a collection or a rating this second call changes nothing at
    all.  An instance constructed after the target was read again from
    the database finds it in the end status, writes nothing and returns
    no entry, whatever the kind of target. *)
Theorem process_action_idempotent (c : Class) (d : CinderDecision)
    (w : World) (self : Action) :
  c ∈ state_mutating →
  init c d w = (w, Returned self) →
  target_as_stored w →
  let first := process_action self w in
  let w1 := first.1 in
  let again := process_action self w1 in
  let w2 := again.1 in
  (∃ r1, first.2 = Returned r1)
  ∧ in_end_status c (stored_target w1) = true
  ∧ again.2 = Returned None
  ∧ in_end_status c (stored_target w2) = true
  ∧ activity_log w2 = activity_log w1
  ∧ (length (activity_log w2) ≤ length (activity_log w) + 1)%nat
  ∧ (kind_of (target w) ≠ UserProfile_ → w2 = w1)
  ∧ ∃ self',
      init c d (reloaded w1) = (reloaded w1, Returned self')
      ∧ process_action self' (reloaded w1) = (reloaded w1, Returned None).
Proof.
  intros Hc Hinit Hstored first w1 again w2.
  assert (Hself : (init c d w).2 = Returned self) by by rewrite Hinit.
  apply init_Returned in Hself as (Hcls & _ & Hkind).
  apply isinstance_true in Hkind.
  destruct (first_run c self w Hc Hcls Hkind Hstored)
    as (Hret & Hend & Hkind1 & Hlog).
  fold first w1 in Hret, Hend, Hkind1, Hlog.
  assert (Hkind' : isinstance (target w1) (valid_targets c) = true).
  { unfold isinstance in *. by rewrite Hkind1. }
  assert (Hsame : kind_of (target w) ≠ UserProfile_ →
                  again = (w1, Returned None)).
  { intros Hother. apply (guard_holds c); [done..|].
    rewrite <- stored_target_other; [done|]. by rewrite Hkind1. }
  assert (Hagain : again.2 = Returned None
                   ∧ in_end_status c (stored_target w2) = true
                   ∧ activity_log w2 = activity_log w1).
  { destruct (decide (kind_of (target w) = UserProfile_)) as [Hu|Hother].
    - destruct (account_again c self w Hc Hcls Hkind Hu Hstored)
        as (? & ? & ? & _). done.
    - subst w2. by rewrite (Hsame Hother). }
  destruct Hagain as (Hret2 & Hend2 & Hlog2).
  split; [done|]. split; [done|]. split; [done|]. split; [done|].
  split; [done|]. split; [by rewrite Hlog2|].
  split; [intros Hother; subst w2; by rewrite (Hsame Hother)|].
  assert (Hkind2 : isinstance (target (reloaded w1)) (valid_targets c)
                   = true).
  { unfold isinstance in *. cbn. by rewrite stored_target_kind, Hkind1. }
  destruct (init_returns c d (reloaded w1) Hkind2)
    as (self' & Hinit' & Hcls').
  exists self'. split; [done|].
  by apply (guard_holds c).
Qed.
End Idempotence.

(** Witness of C1: an account is banned, and the decision is processed
    again by an instance constructed on the account as stored. *)
Lemma process_action_idempotent_witness :
  let c := CinderActionBanUser in
  let d := sample_decision true [] in
  let w1 :=
    (process_action (H := quiet_site) (action_of c d None)
       (world_of (TUserProfile alice))).1 in
  in_end_status (H := quiet_site) c (stored_target w1) = true
  ∧ ∃ self',
      init (H := quiet_site) c d (reloaded w1)
      = (reloaded w1, Returned self')
      ∧ process_action (H := quiet_site) self' (reloaded w1)
        = (reloaded w1, Returned None).
Proof.
  intros c d w1.
  destruct (@process_action_idempotent quiet_site (reference_laws [] _)
              c d (world_of (TUserProfile alice)) (action_of c d None))
    as (_ & Hend & _ & _ & _ & _ & _ & Hnew).
  - decide_it.
  - reflexivity.
  - reflexivity.
  - split; [exact Hend | exact Hnew].
Defined.

(** Counterexample to C1 as stated: the same instance of
    [CinderActionBanUser] is run twice on an account that is not banned.
    The first run bans the account in the database; the second does not
    find it banned, since [self.target] is the object read before the
    ban, and writes the ban a second time. *)
Lemma process_action_idempotent_counterexample :
  let self := action_of CinderActionBanUser (sample_decision true []) None in
  let w := world_of (TUserProfile alice) in
  let w1 := (process_action (H := quiet_site) self w).1 in
  let w2 := (process_action (H := quiet_site) self w1).1 in
  init (H := quiet_site) CinderActionBanUser (sample_decision true []) w
  = (w, Returned self)
  ∧ banned <$> users w1 !! user_pk alice = Some true
  ∧ calls_since w1 w2
    = [call_ban_and_disable_related_content (user_pk alice)]
  ∧ w2 ≠ w1.
Proof.
  split; [reflexivity|]. split; [reflexivity|]. split; [reflexivity|].
  intros Heq. apply (f_equal calls) in Heq. vm_compute in Heq.
  discriminate Heq.
Qed.

(** ** The escalation flagger *)

Section Flagger.
Context `{Collaborators}.

Lemma calls_since_app w w' cs :
  calls w' = (calls w ++ cs)%list → calls_since w w' = cs.
Proof.
  intros Hc. unfold calls_since. rewrite Hc. apply drop_app_length.
Qed.

Lemma flag_each_run reason vs o w :
  flag_each reason vs o w
  = (after_saving (new_flag reason <$> vs) w,
     Returned (match last (new_flag reason <$> vs) with
               | Some row => Some row
               | None => o
               end)).
Proof.
  revert o w. induction vs as [|v vs IH]; intros o w.
  - cbn. unfold after_saving. cbn. rewrite !app_nil_r. by destruct w.
  - cbn [flag_each]. unfold nhr_save. run. rewrite IH.
    f_equal.
    + unfold after_saving, add_call, set_flags. cbn.
      by rewrite <- !app_assoc.
    + rewrite last_cons.
      by destruct (last (new_flag reason <$> vs)).
Qed.

Lemma nothing_reported_nothing_found a fl reason :
  unflagged_reported_versions a fl reason [] = [].
Proof.
  unfold unflagged_reported_versions.
  replace (filter _ (versions a)) with (@nil Version); [done|].
  symmetry. induction (versions a) as [|v vs IH]; [done|].
  rewrite filter_cons_False; [exact IH|].
  intros [Hin _]. by apply elem_of_nil in Hin.
Qed.

(** The version set the flagger starts from equals the un-flagged
    reported versions also when nothing was reported. *)
Lemma just_flagged_eq a fl reason reported :
  (if bool_decide (reported ≠ [])
   then unflagged_reported_versions a fl reason reported
   else [])
  = unflagged_reported_versions a fl reason reported.
Proof.
  destruct reported as [|r rs]; [|by rewrite bool_decide_eq_true_2].
  by rewrite nothing_reported_nothing_found, bool_decide_eq_false_2
    by (intros Hne; by apply Hne).
Qed.

(** What a run of the flagger does when the gate is open, on a
    third-party decision about an add-on. *)
Lemma flag_for_human_review_run self a w :
  switch_is_active "dsa-cinder-escalations-review" = true →
  is_third_party_initiated (decision self) = true →
  target w = TAddon a →
  let reason := REASON_CINDER_ESCALATION in
  let named := reported_versions (decision self) in
  let just_flagged :=
    unflagged_reported_versions a (flags w) reason named in
  let rows := new_flag reason <$> iteration_order just_flagged in
  let w' := (flag_for_human_review self w).1 in
  (flag_for_human_review self w).2 = Returned None
  ∧ calls_since w w'
    = ((call_nhr_save <$> rows)
       ++ (if fallback_condition just_flagged named
           then [call_set_needs_human_review_on_latest_versions
                   reason false true true]
           else []))%list
  ∧ flags w'
    = (if fallback_condition just_flagged named
       then (set_needs_human_review_on_latest_versions a
               (flags w ++ rows) reason false true true).1
       else flags w ++ rows)%list.
Proof.
  intros Hgate Hthird Ht. cbn zeta.
  unfold flag_for_human_review. rewrite Hgate. cbn [negb].
  run. rewrite Ht, Hthird. cbn. rewrite just_flagged_eq.
  rewrite flag_each_run.
  set (named := reported_versions (decision self)).
  set (just_flagged := unflagged_reported_versions _ _ _ _).
  destruct (fallback_condition just_flagged named) eqn:Hfb.
  - unfold flag_latest. cbn.
    destruct (set_needs_human_review_on_latest_versions _ _ _ _ _ _)
      as [fl latest] eqn:Hlatest. cbn.
    destruct (remove_dups (just_flagged ++ latest)); cbn;
      (split; [done|]); (split; [|done]);
      apply calls_since_app; cbn; by rewrite <- app_assoc.
  - cbn. destruct just_flagged; cbn;
      (split; [done|]); (split; [|done]);
      apply calls_since_app; cbn; by rewrite ?app_nil_r.
Qed.

Lemma saved_flags_of_saves rows :
  saved_flags (call_nhr_save <$> rows) = rows.
Proof.
  induction rows as [|row rows IH]; [done|].
  cbn. unfold saved_flags in IH. by rewrite IH.
Qed.

Lemma existsb_false {A} (p : A → bool) (l : list A) :
  existsb p l = false ↔ Forall (λ x, p x = false) l.
Proof.
  induction l as [|x l IH]; cbn; [by split|].
  rewrite orb_false_iff, Forall_cons. by rewrite IH.
Qed.

Lemma excluded_false reason fl v :
  excluded reason fl v = false
  ↔ Forall (λ f, nhr_reason f ≠ reason) (flags_of fl v)
    ∨ Forall (λ f, nhr_is_active f = false) (flags_of fl v).
Proof.
  unfold excluded. rewrite andb_false_iff, !existsb_false.
  apply or_iff_compat_r. apply Forall_proper; [|done].
  intros f. apply bool_decide_eq_false.
Qed.


Lemma flag_for_human_review_returns_None self w :
  (flag_for_human_review self w).2 = Returned None.
Proof.
  unfold flag_for_human_review.
  destruct (switch_is_active _); cbn [negb]; [|done].
  run. destruct (target w) as [a| | |]; try done.
  destruct (is_third_party_initiated _); [|done].
  cbn. rewrite flag_each_run.
  destruct (fallback_condition _ _); cbn.
  - unfold flag_latest. cbn.
    destruct (set_needs_human_review_on_latest_versions _ _ _ _ _ _).
    cbn. by destruct (remove_dups _).
  - by destruct (if bool_decide _ then _ else _).
Qed.




(** C9.  [process_action] of the escalation class returns no entry in
    any world and for any decision, and there is a run in which flags
    were saved and an entry was written to the activity log while the
    caller still received none. *)
Theorem escalate_process_action_returns_None :
  (∀ (d : CinderDecision) (v : option (option Version)) (w : World),
      (process_action (action_of CinderActionEscalateAddon d v) w).2
      = Returned None)
  ∧ (∃ (d : CinderDecision) (w : World),
        let out :=
          process_action (H := escalation_site)
            (action_of CinderActionEscalateAddon d None) w in
        out.2 = Returned None
        ∧ saved_flags (calls_since w out.1) ≠ []
        ∧ length (activity_log out.1) = S (length (activity_log w))).
Proof.
  split.
  - intros d v w. apply flag_for_human_review_returns_None.
  - exists escalation_decision, escalation_world. by vm_compute.
Qed.

End Flagger.


(** ** The reporter notifier *)

Section Reporters.
Context `{Collaborators}.

Lemma add_calls_nil w : add_calls [] w = w.
Proof. unfold add_calls. rewrite app_nil_r. by destruct w. Qed.

Lemma add_calls_app cs1 cs2 w :
  add_calls cs2 (add_calls cs1 w) = add_calls (cs1 ++ cs2) w.
Proof. unfold add_calls. cbn. by rewrite app_assoc. Qed.

Lemma calls_since_add_calls cs w : calls_since w (add_calls cs w) = cs.
Proof. by apply calls_since_app. Qed.

Lemma notify_reporter_run self path r w :
  notify_reporter self path r w
  = (add_calls (report_calls self path (target w) r) w, Returned tt).
Proof.
  unfold notify_reporter, report_calls, report_language.
  destruct (truthy (email_address_of r)); cbn [negb].
  - run. unfold add_calls, add_call. cbn. by rewrite <- app_assoc.
  - run. by rewrite add_calls_nil.
Qed.

Lemma notify_each_run self path rs w :
  notify_each self path rs w
  = (add_calls (concat (report_calls self path (target w) <$> rs)) w,
     Returned tt).
Proof.
  revert w. induction rs as [|r rs IH]; intros w.
  - cbn. by rewrite add_calls_nil.
  - cbn [notify_each]. run. rewrite notify_reporter_run. cbn.
    rewrite IH. cbn. by rewrite add_calls_app.
Qed.

(** Every template path written in a class body is a non-empty string. *)
Lemma reporter_template_truthy c is_appeal path :
  reporter_template c is_appeal = Some path → path ≠ EmptyString.
Proof.
  intros Hp Hempty. subst path.
  destruct c, is_appeal; vm_compute in Hp; discriminate Hp.
Qed.

(** The journal of a whole run of [notify_reporters]. *)
Lemma notify_reporters_run self rs is_appeal w :
  notify_reporters self rs is_appeal w
  = (add_calls
       (match reporter_template (cls self) is_appeal, rs with
        | Some path, _ :: _ =>
            call_get_template path
            :: concat (report_calls self path (target w) <$> rs)
        | _, _ => []
        end) w,
     Returned tt).
Proof.
  unfold notify_reporters. fold (reporter_template (cls self) is_appeal).
  destruct (reporter_template (cls self) is_appeal) as [path|] eqn:Hp;
    [|by rewrite add_calls_nil].
  apply reporter_template_truthy in Hp.
  rewrite bool_decide_eq_false_2 by done. cbn [orb].
  destruct (decide (rs = [])) as [-> | Hrs].
  - rewrite bool_decide_eq_true_2 by done. by rewrite add_calls_nil.
  - rewrite bool_decide_eq_false_2 by done.
    run. rewrite notify_each_run. cbn.
    destruct rs; [done|]. unfold add_calls, add_call. cbn.
    by rewrite <- app_assoc.
Qed.

Lemma rendered_contexts_report_calls self path t rs :
  rendered_contexts (concat (report_calls self path t <$> rs))
  = (λ r, reporter_context (decision self) t (report_language r) r)
    <$> filter (λ r, truthy (email_address_of r)) rs.
Proof.
  induction rs as [|r rs IH]; [done|].
  rewrite fmap_cons. cbn [concat]. unfold rendered_contexts in *.
  rewrite omap_app, IH. unfold report_calls at 1.
  destruct (truthy (email_address_of r)) eqn:Hr.
  - by rewrite filter_cons_True by (by apply Is_true_true).
  - by rewrite filter_cons_False by (by apply Is_true_false).
Qed.

Lemma sent_mail_recipients_report_calls self path t rs :
  sent_mail_recipients (concat (report_calls self path t <$> rs))
  = (λ r, [email_address_of r])
    <$> filter (λ r, truthy (email_address_of r)) rs.
Proof.
  induction rs as [|r rs IH]; [done|].
  rewrite fmap_cons. cbn [concat]. unfold sent_mail_recipients in *.
  rewrite omap_app, IH. unfold report_calls at 1.
  destruct (truthy (email_address_of r)) eqn:Hr.
  - by rewrite filter_cons_True by (by apply Is_true_true).
  - by rewrite filter_cons_False by (by apply Is_true_false).
Qed.

Lemma notify_reporters_rendered self rs is_appeal w :
  rendered_contexts
    (calls_since w (notify_reporters self rs is_appeal w).1)
  = (λ r, reporter_context (decision self) (target w)
            (report_language r) r)
    <$> notified_reports (cls self) is_appeal rs.
Proof.
  rewrite notify_reporters_run. cbn [fst].
  rewrite calls_since_add_calls. unfold notified_reports.
  destruct (reporter_template (cls self) is_appeal) as [path|] eqn:Hp;
    [|done].
  apply reporter_template_truthy in Hp.
  cbn [truthy]. rewrite bool_decide_eq_false_2 by done. cbn [negb].
  destruct rs as [|r rs]; [done|].
  change (rendered_contexts (call_get_template path :: ?l))
    with (rendered_contexts l).
  apply rendered_contexts_report_calls.
Qed.

Lemma notify_reporters_recipients self rs is_appeal w :
  sent_mail_recipients
    (calls_since w (notify_reporters self rs is_appeal w).1)
  = (λ r, [email_address_of r])
    <$> notified_reports (cls self) is_appeal rs.
Proof.
  rewrite notify_reporters_run. cbn [fst].
  rewrite calls_since_add_calls. unfold notified_reports.
  destruct (reporter_template (cls self) is_appeal) as [path|] eqn:Hp;
    [|done].
  apply reporter_template_truthy in Hp.
  cbn [truthy]. rewrite bool_decide_eq_false_2 by done. cbn [negb].
  destruct rs as [|r rs]; [done|].
  change (sent_mail_recipients (call_get_template path :: ?l))
    with (sent_mail_recipients l).
  apply sent_mail_recipients_report_calls.
Qed.



End Reporters.


Section ReporterAddress.
Context `{Collaborators}.

(** C8.  For a variant with a reporter template: [notify_reporters]
    never raises; a mail goes to each report that resolves to an address
    and to no other, whatever the reports around it; a registered
    reporter's address is the one written to even when the report also
    has a free-text address; a report whose registered reporter, if any,
    has no address and whose free-text address is missing is passed over;
    of two reports of which one resolves to an address and the other
    yields none, exactly one mail is sent, to the former. *)
Theorem notify_reporters_skips_unreachable (self : Action)
    (is_appeal : bool) (path : string) (w : World) :
  reporter_template (cls self) is_appeal = Some path →
  let sent rs :=
    sent_mail_recipients
      (calls_since w (notify_reporters self rs is_appeal w).1) in
  (∀ rs, (notify_reporters self rs is_appeal w).2 = Returned tt)
  ∧ (∀ rs, sent rs
           = (λ r, [email_address_of r])
             <$> filter (λ r, truthy (email_address_of r)) rs)
  ∧ (∀ r u, reporter r = Some u → truthy (user_email u) = true →
            sent [r] = [[user_email u]])
  ∧ (∀ r, (∀ u, reporter r = Some u → truthy (user_email u) = false) →
          truthy (reporter_email r) = false →
          sent [r] = [])
  ∧ (∀ r1 r2,
        truthy (email_address_of r1) = true →
        (∀ u, reporter r2 = Some u → truthy (user_email u) = false) →
        truthy (reporter_email r2) = false →
        sent [r1; r2] = [[email_address_of r1]]
        ∧ sent [r2; r1] = [[email_address_of r1]]).
Proof.
  intros Hpath sent.
  assert (Hsent : ∀ rs, sent rs
                        = (λ r, [email_address_of r])
                          <$> filter (λ r, truthy (email_address_of r)) rs).
  { intros rs. unfold sent. rewrite notify_reporters_recipients.
    unfold notified_reports. rewrite Hpath.
    apply reporter_template_truthy in Hpath. cbn [truthy].
    by rewrite bool_decide_eq_false_2 by done. }
  assert (Hnone : ∀ r,
             (∀ u, reporter r = Some u → truthy (user_email u) = false) →
             truthy (reporter_email r) = false →
             truthy (email_address_of r) = false).
  { intros r Huser Hfree. unfold email_address_of.
    destruct (reporter r) as [u|]; [by apply Huser | done]. }
  split; [|split; [done|]]; [|split; [|split]].
  - intros rs. by rewrite notify_reporters_run.
  - intros r u Hr Hu. rewrite Hsent.
    assert (Haddr : email_address_of r = user_email u)
      by (unfold email_address_of; by rewrite Hr).
    rewrite filter_cons_True by (rewrite Haddr; by apply Is_true_true).
    cbn. by rewrite Haddr.
  - intros r Huser Hfree. rewrite Hsent.
    by rewrite filter_cons_False
      by (apply Is_true_false; by apply Hnone).
  - intros r1 r2 H1 Huser Hfree.
    pose proof (Hnone r2 Huser Hfree) as H2.
    rewrite !Hsent. split.
    + rewrite filter_cons_True by (by apply Is_true_true).
      by rewrite filter_cons_False by (by apply Is_true_false).
    + rewrite filter_cons_False by (by apply Is_true_false).
      by rewrite filter_cons_True by (by apply Is_true_true).
Qed.

(** C10.  A report with a registered reporter whose stored address is
    empty is passed over wherever it stands in the list, whatever its
    free-text address: the mails and renderings are those of the list
    without it, and alone it produces no mail.  A mail addressed to a
    report's free-text address comes from a report with no registered
    reporter, or from one whose reporter's stored address is that same
    address. *)
Theorem registered_reporter_address_only (self : Action)
    (pre post : list AbuseReport) (r : AbuseReport) (u : UserProfile)
    (is_appeal : bool) (w : World) :
  reporter r = Some u →
  truthy (user_email u) = false →
  let journal rs :=
    calls_since w (notify_reporters self rs is_appeal w).1 in
  sent_mail_recipients (journal (pre ++ r :: post)%list)
  = sent_mail_recipients (journal (pre ++ post)%list)
  ∧ rendered_contexts (journal (pre ++ r :: post)%list)
    = rendered_contexts (journal (pre ++ post)%list)
  ∧ sent_mail_recipients (journal [r]) = []
  ∧ (∀ r' recipient_list,
        recipient_list ∈ sent_mail_recipients (journal [r']) →
        recipient_list = [reporter_email r'] →
        reporter r' = None
        ∨ ∃ u', reporter r' = Some u'
                ∧ user_email u' = reporter_email r').
Proof.
  intros Hr Hu journal.
  assert (Hskip : truthy (email_address_of r) = false)
    by (unfold email_address_of; by rewrite Hr).
  assert (Hnotified : ∀ l1 l2,
             notified_reports (cls self) is_appeal (l1 ++ r :: l2)
             = notified_reports (cls self) is_appeal (l1 ++ l2)).
  { intros l1 l2. unfold notified_reports.
    destruct (truthy (reporter_template _ _)); [|done].
    rewrite !filter_app.
    by rewrite filter_cons_False by (by apply Is_true_false). }
  unfold journal.
  rewrite !notify_reporters_recipients, !notify_reporters_rendered.
  rewrite Hnotified. repeat split.
  - change [r] with ([] ++ r :: [])%list. rewrite Hnotified.
    unfold notified_reports.
    destruct (truthy (reporter_template _ _)); reflexivity.
  - intros r' recipient_list Hin Heq. subst recipient_list.
    rewrite notify_reporters_recipients in Hin.
    unfold notified_reports in Hin.
    destruct (truthy (reporter_template _ _)); [|by apply elem_of_nil in Hin].
    destruct (reporter r') as [u'|] eqn:Hr'; [right | by left].
    exists u'. split; [done|].
    apply list_elem_of_fmap in Hin as (r'' & Heq & Hin).
    apply list_elem_of_filter in Hin as [_ Hin].
    apply list_elem_of_singleton in Hin as ->.
    unfold email_address_of in Heq. rewrite Hr' in Heq.
    by injection Heq as ->.
Qed.

End ReporterAddress.

(** Witness of C8: two reports to a disabled add-on's reporters, the
    first without any address. *)
Lemma notify_reporters_skips_unreachable_witness :
  let out :=
    notify_reporters (H := quiet_site) takedown
      [report 1 None None None;
       report 2 None (Some "second@example") None]
      false (world_of (TAddon sample_addon)) in
  out.2 = Returned tt
  ∧ sent_mail_recipients
      (calls_since (world_of (TAddon sample_addon)) out.1)
    = [[Some "second@example"]].
Proof.
  destruct (notify_reporters_skips_unreachable (H := quiet_site)
              takedown false "abuse/emails/reporter_takedown_addon.txt"
              (world_of (TAddon sample_addon)) eq_refl)
    as (Hreturns & _ & _ & _ & Htwo).
  split; [apply Hreturns|].
  apply (Htwo (report 2 None (Some "second@example") None)
              (report 1 None None None)).
  - reflexivity.
  - intros u Hu. discriminate Hu.
  - reflexivity.
Defined.

(** Witness of C10: the registered reporter of report 1 has an empty
    address on file; the free-text address of the report is not used. *)
Lemma registered_reporter_address_only_witness :
  sent_mail_recipients
    (calls_since (world_of (TAddon sample_addon))
       (notify_reporters (H := quiet_site) takedown
          [report 1 (Some nameless) (Some "anon@example") None]
          false (world_of (TAddon sample_addon))).1)
  = [].
Proof.
  apply (registered_reporter_address_only (H := quiet_site) takedown
           [] [] (report 1 (Some nameless) (Some "anon@example") None)
           nameless false (world_of (TAddon sample_addon)));
    reflexivity.
Defined.

(** ** The owner notifier *)

Section Owners.
Context `{Collaborators}.

Lemma get_owners_world self w : (get_owners self w).1 = w.
Proof.
  destruct self as [c d v]. unfold get_owners.
  destruct c; run;
    unfold CinderActionBanUser_get_owners,
      CinderActionDisableAddon_get_owners,
      CinderActionDeleteCollection_get_owners,
      CinderActionDeleteRating_get_owners, owners_per_target_kind,
      no_owners; run; by destruct (target w).
Qed.

Lemma notify_owners_rendered self log_entry_id policy_text extra_context
    rand w :
  rendered_contexts
    (calls_since w
       (notify_owners self log_entry_id policy_text extra_context rand
          w).1)
  = match (get_owners self w).2 with
    | Returned (_ :: _) =>
        [rendered_for_owners self policy_text extra_context w]
    | _ => []
    end.
Proof.
  unfold notify_owners. run.
  pose proof (get_owners_world self w) as Hw.
  destruct (get_owners self w) as [w1 [owners | e]]; cbn in Hw; subst w1;
    cbn.
  - destruct owners as [|o os]; cbn.
    + unfold calls_since. by rewrite drop_all.
    + destruct (addon_version self) as [[v|]|]; cbn;
        (erewrite calls_since_app;
         [|cbn; by rewrite <- !app_assoc]); done.
  - unfold calls_since. by rewrite drop_all.
Qed.

Lemma owner_context_appeal_url d t name reference policy_text
    extra_context :
  owner_context d t name reference policy_text extra_context
    !! "appeal_url"
  = if owner_can_appeal d
    then Some (VStr (appeal_author_url d))
    else default ∅ extra_context !! "appeal_url".
Proof.
  unfold owner_context. destruct (owner_can_appeal d).
  - by rewrite lookup_insert_eq.
  - destruct policy_text; rewrite lookup_insert_ne by done;
      by rewrite lookup_union_l.
Qed.

(** C6, as the code has it.  [notify_owners] renders at most one message
    for all the owners together, and exactly one when [get_owners]
    returns somebody.  The context of that message holds [appeal_url]
    exactly when [can_be_appealed(is_reporter=False)] holds and the
    decision is third-party initiated or the switch
    [dsa-appeals-review] is on, or when the caller's [extra_context]
    itself carries an [appeal_url]; when the condition on the decision
    holds, the entry is the author's appeal URL of the decision. *)
Theorem notify_owners_appeal_url (self : Action)
    (log_entry_id : option Z) (policy_text : option string)
    (extra_context : option (gmap string Value)) (rand : Z) (w : World) :
  let rendered :=
    rendered_contexts
      (calls_since w
         (notify_owners self log_entry_id policy_text extra_context
            rand w).1) in
  (length rendered ≤ 1)%nat
  ∧ (∀ owners, get_owners self w = (w, Returned owners) →
               owners ≠ [] → length rendered = 1%nat)
  ∧ (∀ context, context ∈ rendered →
       (is_Some (context !! "appeal_url")
        ↔ owner_can_appeal (decision self) = true
          ∨ is_Some (default ∅ extra_context !! "appeal_url"))
       ∧ (owner_can_appeal (decision self) = true →
          context !! "appeal_url"
          = Some (VStr (appeal_author_url (decision self))))).
Proof.
  intros rendered. subst rendered. rewrite notify_owners_rendered.
  split; [|split].
  - destruct (get_owners self w).2 as [[|o os]|e]; cbn; lia.
  - intros owners Hrun Hne. rewrite Hrun. cbn.
    by destruct owners.
  - intros context Hin.
    assert (Hctx : context
                   = rendered_for_owners self policy_text extra_context w).
    { destruct (get_owners self w).2 as [[|o os]|e];
        try (by apply elem_of_nil in Hin).
      by apply list_elem_of_singleton in Hin. }
    subst context. unfold rendered_for_owners.
    rewrite owner_context_appeal_url.
    destruct (owner_can_appeal (decision self)).
    + split; [|done]. split; [by left | by eexists].
    + split; [|done]. split; [by right | by intros [? | ?]].
Qed.

End Owners.

(** Counterexample to C6 as stated: the decision cannot be appealed, yet
    the message to the owners is rendered with an [appeal_url], the one
    the caller passed in [extra_context]. *)
Lemma notify_owners_appeal_url_counterexample :
  let extra_context : gmap string Value :=
    {[ "appeal_url" := VStr "https://elsewhere.example/appeal" ]} in
  let out :=
    notify_owners (H := quiet_site) takedown None None
      (Some extra_context) 0 (world_of (TAddon sample_addon)) in
  owner_can_appeal (H := quiet_site) (decision takedown) = false
  ∧ ∃ context,
      rendered_contexts (calls out.1) = [context]
      ∧ context !! "appeal_url"
        = Some (VStr "https://elsewhere.example/appeal").
Proof.
  split; [reflexivity|]. eexists. split; by vm_compute.
Qed.

(** * Further properties of the dispatcher *)

Section Dispatch.
Context `{Collaborators}.

(** X1.  The constructor never changes the world; it returns an instance
    of the class for the decision exactly when the kind of the target is
    one of the class's [valid_targets], and raises
    [ImproperlyConfigured], and nothing else, exactly when it is not. *)
Theorem init_succeeds_iff_valid_target (c : Class) (d : CinderDecision)
    (w : World) :
  (init c d w).1 = w
  ∧ ((∃ self, (init c d w).2 = Returned self
              ∧ cls self = c ∧ decision self = d)
     ↔ kind_of (target w) ∈ valid_targets c)
  ∧ ((∃ e, (init c d w).2 = Raised e)
     ↔ kind_of (target w) ∉ valid_targets c)
  ∧ (∀ e, (init c d w).2 = Raised e → e = ImproperlyConfigured).
Proof.
  split; [apply init_world|].
  unfold init. run.
  destruct (decide (kind_of (target w) ∈ valid_targets c)) as [Hin|Hout].
  - rewrite isinstance_true by done. cbn. repeat split; try done.
    + intros _. by eexists.
    + by intros [e He].
  - rewrite isinstance_false by done. cbn. repeat split; try done.
    + by intros (self & Hself & _).
    + intros _. by eexists.
    + by intros e [= <-].
Qed.


End Dispatch.

Ltac class_cases Hkind :=
  match goal with
  | c : Class |- _ =>
      destruct c; try (vm_compute in Hkind; discriminate Hkind)
  end.

Section Instances.
Context `{Collaborators}.

Lemma init_kind c d w self :
  init c d w = (w, Returned self) →
  cls self = c ∧ isinstance (target w) (valid_targets c) = true.
Proof.
  intros Hinit.
  assert (Hself : (init c d w).2 = Returned self) by by rewrite Hinit.
  apply init_Returned in Hself as (Hcls & _ & Hkind).
  split; [done | by apply isinstance_true].
Qed.

Lemma get_owners_of_instance_aux (c : Class) (d : CinderDecision)
    (w : World) (self : Action) :
  init c d w = (w, Returned self) →
  get_owners self w
  = (w, Returned (if bool_decide (c ∈ silent_classes) then []
                  else owners_of_target (target w))).
Proof.
  intros Hinit. apply init_kind in Hinit as [Hcls Hkind].
  destruct self as [c' d' v]. cbn in Hcls. subst c'.
  unfold isinstance in Hkind.
  destruct (target w) as [a | u | co | r] eqn:Ht; class_cases Hkind;
    unfold get_owners; run;
    unfold CinderActionBanUser_get_owners,
      CinderActionDisableAddon_get_owners,
      CinderActionDeleteCollection_get_owners,
      CinderActionDeleteRating_get_owners, owners_per_target_kind,
      no_owners; run; by rewrite ?Ht.
Qed.

(** X3.  On an instance the constructor returned, [get_owners] returns
    without raising and without touching the world: nobody for the
    escalation and the no-action approval, and otherwise the authors of
    an add-on, the account itself, the author of a collection or the
    user who wrote a rating. *)
Theorem get_owners_of_instance (c : Class) (d : CinderDecision)
    (w : World) (self : Action) :
  init c d w = (w, Returned self) →
  get_owners self w
  = (w, Returned (if bool_decide (c ∈ silent_classes) then []
                  else owners_of_target (target w))).
Proof. apply get_owners_of_instance_aux. Qed.

Lemma flag_for_human_review_target self w :
  target (flag_for_human_review self w).1 = target w.
Proof.
  unfold flag_for_human_review.
  destruct (switch_is_active _); cbn [negb]; [|done].
  run. destruct (target w) as [a| | |] eqn:Ht; try done.
  destruct (is_third_party_initiated _); [|done].
  cbn. rewrite flag_each_run.
  destruct (fallback_condition _ _); cbn.
  - unfold flag_latest. cbn.
    destruct (set_needs_human_review_on_latest_versions _ _ _ _ _ _).
    cbn. by destruct (remove_dups _).
  - by destruct (if bool_decide _ then _ else _).
Qed.

(** X4.  On an instance the constructor returned, [process_action]
    returns: neither the [NotImplementedError] of the base class nor an
    attribute error can occur, and the target is still of the kind it
    was. *)
Theorem process_action_of_instance_returns (c : Class)
    (d : CinderDecision) (w : World) (self : Action) :
  init c d w = (w, Returned self) →
  ∃ w' entry,
    process_action self w = (w', Returned entry)
    ∧ kind_of (target w') = kind_of (target w).
Proof.
  intros Hinit. apply init_kind in Hinit as [Hcls Hkind].
  destruct self as [c' d' v]. cbn in Hcls. subst c'.
  unfold isinstance in Hkind.
  destruct (target w) as [a | u | co | r] eqn:Ht; class_cases Hkind;
    unfold process_action; run;
    try (unfold CinderActionEscalateAddon_process_action;
         pose proof (flag_for_human_review_returns_None
                       (action_of CinderActionEscalateAddon d' v) w) as Hr;
         pose proof (flag_for_human_review_target
                       (action_of CinderActionEscalateAddon d' v) w) as Hk;
         destruct (flag_for_human_review _ w) as [w' o]; cbn in Hr, Hk;
         subst o; eexists _, _; split; [reflexivity|];
         by rewrite Hk, Ht);
    unfold CinderActionBanUser_process_action,
      CinderActionDisableAddon_process_action,
      CinderActionDeleteCollection_process_action,
      CinderActionDeleteRating_process_action,
      CinderActionTargetAppealApprove_process_action, return_None;
    run; rewrite ?Ht; cbn;
    repeat match goal with
           | |- context [if ?b then _ else _] => destruct b; cbn
           end;
    eexists _, _; (split; [reflexivity|]); cbn; by rewrite ?Ht.
Qed.

(** X5.  Whatever the instance and the world, when [process_action]
    returns an entry it is the one entry the run appended to the activity
    log, it is about the target as the run left it, and it is
    [FORCE_DISABLE] from a disabling or rejecting class on an add-on or
    [COLLECTION_DELETED] from [CinderActionDeleteCollection] on a
    collection; every other class returns [None]. *)
Theorem process_action_returned_entry (self : Action) (w w' : World)
    (entry : ActivityLog) :
  process_action self w = (w', Returned (Some entry)) →
  activity_log w' = (activity_log w ++ [entry])%list
  ∧ log_arguments entry = [ArgTarget (target w')]
  ∧ ((log_action entry = FORCE_DISABLE
      ∧ kind_of (target w') = Addon_
      ∧ cls self ∈ [CinderActionDisableAddon; CinderActionRejectVersion;
                    CinderActionRejectVersionDelayed])
     ∨ (log_action entry = COLLECTION_DELETED
        ∧ kind_of (target w') = Collection_
        ∧ cls self = CinderActionDeleteCollection)).
Proof.
  destruct self as [c d v]. unfold process_action. run.
  destruct c; cbn;
    try (unfold CinderActionEscalateAddon_process_action;
         intros Hrun;
         pose proof (flag_for_human_review_returns_None
                       (action_of CinderActionEscalateAddon d v) w) as Hr;
         unfold action_of in Hr; rewrite Hrun in Hr; discriminate Hr);
    unfold CinderAction_process_action,
      CinderActionBanUser_process_action,
      CinderActionDisableAddon_process_action,
      CinderActionDeleteCollection_process_action,
      CinderActionDeleteRating_process_action,
      CinderActionTargetAppealApprove_process_action, return_None;
    run; destruct (target w) as [a | u | co | r] eqn:Ht; cbn;
    repeat match goal with
           | |- context [if ?b then _ else _] => destruct b; cbn
           end;
    try (intros [= <- <-]); try discriminate; cbn;
    (split; [reflexivity|]); (split; [reflexivity|]);
    first [ left; repeat split; set_solver
          | right; by repeat split ].
Qed.

End Instances.

(** Witness of X3: the owners of a disabled add-on are its two authors. *)
Lemma get_owners_of_instance_witness :
  get_owners takedown (world_of (TAddon sample_addon))
  = (world_of (TAddon sample_addon), Returned [alice; bob]).
Proof.
  apply (get_owners_of_instance (H := quiet_site)
           CinderActionDisableAddon (sample_decision true [])
           (world_of (TAddon sample_addon)) takedown).
  reflexivity.
Defined.

(** Witness of X4: an appeal is granted on a rating. *)
Lemma process_action_of_instance_returns_witness :
  ∃ w' entry,
    process_action (H := quiet_site)
      (action_of CinderActionTargetAppealApprove (sample_decision true [])
         None) (world_of (TRating sample_rating))
    = (w', Returned entry)
    ∧ kind_of (target w') = Rating_.
Proof.
  apply (process_action_of_instance_returns (H := quiet_site)
           CinderActionTargetAppealApprove (sample_decision true [])
           (world_of (TRating sample_rating))).
  reflexivity.
Defined.

(** Witness of X5: the entry of a deleted collection. *)
Lemma process_action_returned_entry_witness :
  let entry :=
    {| log_id := 1; log_action := COLLECTION_DELETED;
       log_arguments :=
         [ArgTarget
            (TCollection (with_collection_deleted true sample_collection))];
       log_details := None |} in
  log_arguments entry
  = [ArgTarget
       (TCollection (with_collection_deleted true sample_collection))].
Proof.
  intros entry.
  apply (process_action_returned_entry (H := quiet_site)
           (action_of CinderActionDeleteCollection
              (sample_decision true []) None)
           (world_of (TCollection sample_collection))
           {| target :=
                TCollection
                  (with_collection_deleted true sample_collection);
              users := ∅; flags := []; activity_log := [entry];
              calls := [call_delete] |} entry).
  reflexivity.
Defined.

Section Transitions.
Context `{Collaborators} `{!EntityStoreLaws}.



(** A decision processed by an instance constructed for it, after which
    the target is read again: the target is then in memory as it is
    stored, of the kind it was, and in the end status of the class. *)
Lemma processed_and_reloaded c d w :
  c ∈ (takedown_classes ++ reinstating_classes)%list →
  (∀ u, user_pk (ban_and_disable_related_content u) = user_pk u) →
  (∀ u, user_pk (unban_and_reenable_related_content u) = user_pk u) →
  isinstance (target w) (valid_targets c) = true →
  target_as_stored w →
  ∃ self,
    init c d w = (w, Returned self)
    ∧ let w' := reloaded (process_action self w).1 in
      target_as_stored w'
      ∧ kind_of (target w') = kind_of (target w)
      ∧ taken_down (target w') = bool_decide (c ∈ takedown_classes).
Proof.
  intros Hc Hban Hunban Hkind.
  destruct (init_returns c d w Hkind) as (self & Hinit & Hcls).
  intros Hstored. exists self. split; [done|].
  destruct self as [c' d' v]. cbn in Hcls. subst c'.
  revert Hstored. clear Hinit.
  unfold target_as_stored, reloaded, stored_target. cbn [app] in Hc.
  variants Hc Hkind Ht; intros Hrow; on_guard Hg;
    rewrite ?Ht, ?Hban, ?Hunban, ?lookup_alter_eq, ?Hrow; cbn; laws;
    rewrite ?Hg; cbn;
    rewrite ?(bool_decide_eq_true_2 _ (status_after_force_disable _)),
      ?(bool_decide_eq_true_2 (STATUS_DISABLED = STATUS_DISABLED) eq_refl);
    repeat split; try done;
    by rewrite ?Hban, ?Hunban, lookup_alter_eq, Hrow.
Qed.

(** X7.  A takedown, the appeal against it granted, and the takedown
    replayed, each by an instance constructed for it on the target as
    stored: the target is taken down after the first, restored after the
    second and taken down again after the third.  The ban and its
    reversal are assumed to keep the primary key of the account. *)
Theorem takedown_reinstatement_takedown (c c' : Class)
    (d d' : CinderDecision) (w : World) :
  c ∈ takedown_classes →
  c' ∈ reinstating_classes →
  (∀ u, user_pk (ban_and_disable_related_content u) = user_pk u) →
  (∀ u, user_pk (unban_and_reenable_related_content u) = user_pk u) →
  isinstance (target w) (valid_targets c) = true →
  target_as_stored w →
  ∃ takedown appeal replay,
    init c d w = (w, Returned takedown)
    ∧ let w1 := reloaded (process_action takedown w).1 in
      init c' d' w1 = (w1, Returned appeal)
      ∧ let w2 := reloaded (process_action appeal w1).1 in
        init c d w2 = (w2, Returned replay)
        ∧ let w3 := reloaded (process_action replay w2).1 in
          taken_down (target w1) = true
          ∧ taken_down (target w2) = false
          ∧ taken_down (target w3) = true.
Proof.
  intros Hc Hc' Hban Hunban Hkind Hstored.
  assert (Hall : ∀ t, isinstance t (valid_targets c') = true).
  { intros t. unfold reinstating_classes in Hc'.
    repeat (apply elem_of_cons in Hc' as [-> | Hc']);
      [ .. | by apply elem_of_nil in Hc' ]; by destruct t. }
  destruct (processed_and_reloaded c d w) as (takedown & Hinit1 & Hw1);
    [apply elem_of_app; by left | done..|].
  cbn zeta in Hw1. destruct Hw1 as (Hstored1 & Hkind1 & Hdown1).
  set (w1 := reloaded (process_action takedown w).1) in *.
  destruct (processed_and_reloaded c' d' w1) as (appeal & Hinit2 & Hw2);
    [apply elem_of_app; by right | done..|].
  cbn zeta in Hw2. destruct Hw2 as (Hstored2 & Hkind2 & Hdown2).
  set (w2 := reloaded (process_action appeal w1).1) in *.
  destruct (processed_and_reloaded c d w2) as (replay & Hinit3 & Hw3);
    [apply elem_of_app; by left | done | done | | done |].
  { unfold isinstance in *. by rewrite Hkind2, Hkind1. }
  cbn zeta in Hw3. destruct Hw3 as (_ & _ & Hdown3).
  rewrite bool_decide_eq_true_2 in Hdown1, Hdown3 by done.
  rewrite bool_decide_eq_false_2 in Hdown2.
  - exists takedown, appeal, replay.
    split; [done|]. split; [done|]. split; [done|].
    exact (conj Hdown1 (conj Hdown2 Hdown3)).
  - intros Hin. unfold reinstating_classes in Hc'.
    repeat (apply elem_of_cons in Hc' as [-> | Hc']);
      [ .. | by apply elem_of_nil in Hc' ];
      by apply (bool_decide_pack _) in Hin.
Qed.

End Transitions.


(** Witness of X7: an account is banned, unbanned on appeal and banned
    again. *)
Lemma takedown_reinstatement_takedown_witness :
  ∃ ban appeal replay,
    init (H := quiet_site) CinderActionBanUser (sample_decision true [])
      (world_of (TUserProfile alice))
    = (world_of (TUserProfile alice), Returned ban)
    ∧ let w1 :=
        reloaded
          (process_action (H := quiet_site) ban
             (world_of (TUserProfile alice))).1 in
      init (H := quiet_site) CinderActionTargetAppealApprove
        (sample_decision false []) w1
      = (w1, Returned appeal)
      ∧ let w2 :=
          reloaded (process_action (H := quiet_site) appeal w1).1 in
        init (H := quiet_site) CinderActionBanUser
          (sample_decision true []) w2
        = (w2, Returned replay)
        ∧ let w3 :=
            reloaded (process_action (H := quiet_site) replay w2).1 in
          taken_down (H := quiet_site) (target w1) = true
          ∧ taken_down (H := quiet_site) (target w2) = false
          ∧ taken_down (H := quiet_site) (target w3) = true.
Proof.
  apply (@takedown_reinstatement_takedown quiet_site
           (reference_laws [] _) CinderActionBanUser
           CinderActionTargetAppealApprove (sample_decision true [])
           (sample_decision false [])
           (world_of (TUserProfile alice))).
  - decide_it.
  - decide_it.
  - reflexivity.
  - reflexivity.
  - reflexivity.
  - reflexivity.
Defined.

(** * Further properties of the notifier *)

(** X8.  The owner template is named after the class: two instances
    share an owner template exactly when they are instances of one
    class, whatever their decisions. *)
Theorem owner_template_path_inj (self1 self2 : Action) :
  owner_template_path self1 = owner_template_path self2
  ↔ cls self1 = cls self2.
Proof.
  destruct self1 as [c1 d1 v1], self2 as [c2 d2 v2].
  unfold owner_template_path. cbn. split; [|by intros ->].
  intros Heq. apply String.app_inj in Heq.
  destruct c1, c2; try reflexivity; vm_compute in Heq; discriminate Heq.
Qed.

Section OwnerMail.
Context `{Collaborators}.

Lemma notify_owners_run self log_entry_id policy_text extra_context rand
    w owners :
  get_owners self w = (w, Returned owners) →
  owners ≠ [] →
  let path := owner_template_path self in
  let name := get_target_name get_language (target w) in
  let reference := "ref:" +:+ reference_id (decision self) in
  let context := rendered_for_owners self policy_text extra_context w in
  let subject :=
    "Mozilla Add-ons: " +:+ name +:+ " [" +:+ reference +:+ "]" in
  notify_owners self log_entry_id policy_text extra_context rand w
  = (add_calls
       [call_get_template path; call_render path context;
        match addon_version self with
        | Some (Some v) =>
            call_send_activity_mail subject (render path context) v
              owners ADDONS_EMAIL
              (match log_entry_id with
               | Some i => if bool_decide (i = 0) then rand else i
               | None => rand
               end)
        | _ =>
            call_send_mail subject (render path context)
              (user_email <$> owners)
        end] w,
     Returned tt).
Proof.
  intros Hown Hne. cbn zeta. unfold notify_owners. run. rewrite Hown. cbn.
  rewrite bool_decide_eq_false_2 by done. unfold rendered_for_owners.
  destruct (addon_version self) as [[v|]|]; cbn;
    unfold add_calls, add_call; cbn; by rewrite <- !app_assoc.
Qed.

(** X9.  For the escalation, the no-action approval and the fallback
    class, whose [get_owners] is empty, [notify_owners] does nothing: no
    template is loaded, nothing is rendered or sent, and the world is
    the one it was given. *)
Theorem notify_owners_without_owners (c : Class) (d : CinderDecision)
    (v : option (option Version)) (log_entry_id : option Z)
    (policy_text : option string)
    (extra_context : option (gmap string Value)) (rand : Z) (w : World) :
  c ∈ silent_classes →
  notify_owners (action_of c d v) log_entry_id policy_text extra_context
    rand w
  = (w, Returned tt).
Proof.
  intros Hc. unfold silent_classes in Hc.
  repeat (apply elem_of_cons in Hc as [-> | Hc]);
    [ .. | by apply elem_of_nil in Hc ]; reflexivity.
Qed.

(** X10.  On an instance the constructor returned, for a class that
    names owners and a target that has some: [notify_owners] loads the
    class's owner template, renders once and sends once.  When the
    target is an add-on with a current version, or failing that a latest
    version, the message goes through the activity mail of that version
    to all the owners from [ADDONS_EMAIL], under [log_entry_id] if one
    was given and is not zero and else under the random draw; in every
    other case it goes by plain mail to the owners' addresses. *)
Theorem notify_owners_channel (c : Class) (d : CinderDecision)
    (w : World) (self : Action) (log_entry_id : option Z)
    (policy_text : option string)
    (extra_context : option (gmap string Value)) (rand : Z) :
  init c d w = (w, Returned self) →
  c ∉ silent_classes →
  owners_of_target (target w) ≠ [] →
  let out :=
    notify_owners self log_entry_id policy_text extra_context rand w in
  let journal := calls_since w out.1 in
  let owners := owners_of_target (target w) in
  out.2 = Returned tt
  ∧ loaded_templates journal
    = ["abuse/emails/" +:+ class_name c +:+ ".txt"]
  ∧ length (rendered_contexts journal) = 1%nat
  ∧ (∀ ver, version_for_mail (target w) = Some ver →
        sent_mail_recipients journal = []
        ∧ sent_activity_mails journal
          = [(ver, owners, ADDONS_EMAIL,
              match log_entry_id with
              | Some i => if bool_decide (i = 0) then rand else i
              | None => rand
              end)])
  ∧ (version_for_mail (target w) = None →
        sent_activity_mails journal = []
        ∧ sent_mail_recipients journal = [user_email <$> owners]).
Proof.
  intros Hinit Hc Hne out journal owners.
  pose proof (get_owners_of_instance_aux c d w self Hinit) as Hown.
  rewrite bool_decide_eq_false_2 in Hown by done.
  assert (Hattr : cls self = c
                  ∧ addon_version self
                    = match target w with
                      | TAddon _ => Some (version_for_mail (target w))
                      | _ => None
                      end).
  { revert Hinit. unfold init. run.
    destruct (isinstance _ _); [|done]. intros [= <-]. cbn.
    split; [done|]. by destruct (target w). }
  destruct Hattr as [Hcls Hattr].
  subst journal out.
  rewrite (notify_owners_run self log_entry_id policy_text extra_context
             rand w _ Hown Hne).
  cbn [fst snd]. rewrite calls_since_add_calls.
  unfold owner_template_path. rewrite Hcls, Hattr.
  destruct (target w) as [a | u | co | r];
    [destruct (version_for_mail (TAddon a)) as [ver0|] | ..];
    cbn; repeat split; try done; by simplify_eq.
Qed.



(** X12.  The owner context carries the justification in one of two
    entries: with a [policy_text] it is [manual_policy_text], holding
    that text, and [policies] is left to the caller's extra context;
    without one it is [policies], holding the decision's policies in
    their order, and [manual_policy_text] is left to the caller.  The
    caller's extra context cannot replace the entry that is set. *)
Theorem owner_context_policies (d : CinderDecision) (t : Target)
    (name reference : string) (policy_text : option string)
    (extra_context : option (gmap string Value)) :
  let context :=
    owner_context d t name reference policy_text extra_context in
  match policy_text with
  | Some text =>
      context !! "manual_policy_text" = Some (VStr text)
      ∧ context !! "policies" = default ∅ extra_context !! "policies"
  | None =>
      context !! "policies" = Some (VPolicies (policies d))
      ∧ context !! "manual_policy_text"
        = default ∅ extra_context !! "manual_policy_text"
  end.
Proof.
  cbn zeta. unfold owner_context.
  destruct policy_text as [text|], (owner_can_appeal d);
    rewrite ?(lookup_insert_ne _ "appeal_url") by done;
    (split; [by rewrite lookup_insert_eq|]);
    rewrite lookup_insert_ne by done; by rewrite lookup_union_l.
Qed.

End OwnerMail.

(** Witness of X9: nobody is written to about an escalation. *)
Lemma notify_owners_without_owners_witness :
  notify_owners (H := quiet_site)
    (action_of CinderActionEscalateAddon (sample_decision true [])
       (Some (Some v3))) None None None 0
    (world_of (TAddon sample_addon))
  = (world_of (TAddon sample_addon), Returned tt).
Proof.
  apply (notify_owners_without_owners (H := quiet_site)).
  decide_it.
Defined.

(** Witness of X10: the authors of a disabled add-on are written to
    through the activity mail of its current version. *)
Lemma notify_owners_channel_witness :
  sent_activity_mails
    (calls_since (world_of (TAddon sample_addon))
       (notify_owners (H := quiet_site) takedown (Some 42) None None 7
          (world_of (TAddon sample_addon))).1)
  = [(v3, [alice; bob], "addons@example", 42)].
Proof.
  destruct (notify_owners_channel (H := quiet_site)
              CinderActionDisableAddon (sample_decision true [])
              (world_of (TAddon sample_addon)) takedown (Some 42) None
              None 7 eq_refl)
    as (_ & _ & _ & Hactivity & _).
  - decide_it.
  - decide_it.
  - apply (Hactivity v3). reflexivity.
Defined.

Section ReporterMail.
Context `{Collaborators}.

Lemma truthy_Some s : truthy s = true → ∃ s', s = Some s' ∧ s' ≠ EmptyString.
Proof.
  destruct s as [s'|]; cbn; [|done]. intros Ht. exists s'. split; [done|].
  intros ->. by rewrite bool_decide_eq_true_2 in Ht.
Qed.

Lemma renderings_and_mails_report_calls self path t rs :
  renderings_and_mails (concat (report_calls self path t <$> rs))
  = concat (report_calls self path t <$> rs).
Proof.
  unfold renderings_and_mails.
  induction rs as [|r rs IH]; [done|].
  rewrite fmap_cons. cbn [concat]. rewrite filter_app, IH. f_equal.
  unfold report_calls. by destruct (truthy (email_address_of r)).
Qed.

Lemma notify_reporters_renderings_and_mails self rs is_appeal w :
  renderings_and_mails
    (calls_since w (notify_reporters self rs is_appeal w).1)
  = match reporter_template (cls self) is_appeal with
    | Some path => concat (report_calls self path (target w) <$> rs)
    | None => []
    end.
Proof.
  rewrite notify_reporters_run. cbn [fst].
  rewrite calls_since_add_calls.
  destruct (reporter_template (cls self) is_appeal) as [path|]; [|done].
  destruct rs as [|r rs]; [done|].
  change (renderings_and_mails (call_get_template path :: ?l))
    with (renderings_and_mails l).
  apply renderings_and_mails_report_calls.
Qed.

(** X13.  [notify_reporters] does nothing at all, not even load a
    template, exactly when the class has no reporter template for the
    kind of notification or no report is given; in every other case the
    one template is loaded once, before anything is rendered. *)
Theorem notify_reporters_no_op_iff (self : Action)
    (rs : list AbuseReport) (is_appeal : bool) (w : World) :
  let out := notify_reporters self rs is_appeal w in
  (out.1 = w
   ↔ reporter_template (cls self) is_appeal = None ∨ rs = [])
  ∧ (∀ path, reporter_template (cls self) is_appeal = Some path →
             rs ≠ [] →
             ∃ rest, calls_since w out.1 = call_get_template path :: rest
                     ∧ loaded_templates rest = []).
Proof.
  cbn zeta. rewrite notify_reporters_run. cbn [fst]. split.
  - destruct (reporter_template (cls self) is_appeal) as [path|].
    + destruct rs as [|r rs].
      * rewrite add_calls_nil. split; [by right | done].
      * split; [|by intros [? | ?]].
        intros Hw. apply (f_equal calls) in Hw. cbn in Hw.
        apply (f_equal length) in Hw. rewrite length_app in Hw.
        cbn in Hw. lia.
    + rewrite add_calls_nil. split; [by left | done].
  - intros path -> Hrs. rewrite calls_since_add_calls.
    destruct rs as [|r rs]; [done|]. eexists. split; [reflexivity|].
    generalize (r :: rs). intros l.
    induction l as [|r' l IH]; [done|].
    rewrite fmap_cons. cbn [concat]. unfold loaded_templates in *.
    rewrite omap_app, IH, app_nil_r.
    unfold report_calls. by destruct (truthy (email_address_of r')).
Qed.

(** X14.  Every mail [notify_reporters] sends has exactly one recipient,
    and that address is a non-empty string. *)
Theorem reporter_mail_has_one_address (self : Action)
    (rs : list AbuseReport) (is_appeal : bool) (w : World)
    (recipient_list : list (option string)) :
  recipient_list
  ∈ sent_mail_recipients
      (calls_since w (notify_reporters self rs is_appeal w).1) →
  ∃ address, recipient_list = [Some address] ∧ address ≠ EmptyString.
Proof.
  rewrite notify_reporters_recipients. unfold notified_reports.
  intros Hin.
  destruct (truthy (reporter_template _ _)); [|by apply elem_of_nil in Hin].
  apply list_elem_of_fmap in Hin as (r & -> & Hin).
  apply list_elem_of_filter in Hin as [Haddr _].
  apply Is_true_true in Haddr.
  apply truthy_Some in Haddr as (address & -> & Hne). by exists address.
Qed.

(** X15.  Reports are notified one by one and in order: the renderings
    and mails of a list of reports are those of its first part followed
    by those of the rest, so what one report gets, its language
    included, does not depend on the reports around it. *)
Theorem notify_reporters_report_by_report (self : Action)
    (rs1 rs2 : list AbuseReport) (is_appeal : bool) (w : World) :
  let journal rs :=
    renderings_and_mails
      (calls_since w (notify_reporters self rs is_appeal w).1) in
  journal (rs1 ++ rs2)%list = (journal rs1 ++ journal rs2)%list.
Proof.
  intros journal. subst journal. cbn beta.
  rewrite !notify_reporters_renderings_and_mails.
  destruct (reporter_template (cls self) is_appeal); [|done].
  by rewrite fmap_app, concat_app.
Qed.

Lemma string_app_eq_self (s x : string) : s +:+ x = s → x = EmptyString.
Proof.
  induction s as [|ch s IH]; cbn; [done|]. intros [= Heq]. by apply IH.
Qed.

(** X16.  Within a decision the reference given to a reporter identifies
    the report: two reports get the same reference only if they have the
    same id, and no reporter's reference is the reference the owners are
    given. *)
Theorem reporter_reference_identifies_report (d : CinderDecision)
    (r1 r2 : AbuseReport) :
  (reporter_reference d r1 = reporter_reference d r2
   ↔ report_id r1 = report_id r2)
  ∧ reporter_reference d r1 ≠ "ref:" +:+ reference_id d.
Proof.
  unfold reporter_reference. split; [split|].
  - intros Heq. do 3 apply String.app_inj in Heq.
    by apply (inj pretty) in Heq.
  - by intros ->.
  - intros Heq. apply String.app_inj in Heq.
    apply string_app_eq_self in Heq. discriminate Heq.
Qed.

End ReporterMail.

(** Witness of X14: the one mail about two reports, one of them without
    any address. *)
Lemma reporter_mail_has_one_address_witness :
  ∃ address,
    [Some "second@example"] = [Some address] ∧ address ≠ EmptyString.
Proof.
  apply (reporter_mail_has_one_address (H := quiet_site) takedown
           [report 1 None None None;
            report 2 None (Some "second@example") None]
           false (world_of (TAddon sample_addon))).
  decide_it.
Defined.

(** * Further properties of the escalation flagger *)

Section FlaggerMore.
Context `{Collaborators}.

Lemma nhr_object_reason reason vs newest :
  nhr_reason
    (default (new_flag reason newest)
       (match last (new_flag reason <$> vs) with
        | Some row => Some row
        | None => None
        end))
  = reason.
Proof. rewrite fmap_last. by destruct (last vs). Qed.

(** The whole effect of a run on the activity log, gate open. *)
Lemma flag_for_human_review_log self a w :
  switch_is_active "dsa-cinder-escalations-review" = true →
  is_third_party_initiated (decision self) = true →
  target w = TAddon a →
  let reason := REASON_CINDER_ESCALATION in
  let named := reported_versions (decision self) in
  let just_flagged :=
    unflagged_reported_versions a (flags w) reason named in
  let rows := new_flag reason <$> iteration_order just_flagged in
  let latest :=
    (set_needs_human_review_on_latest_versions a (flags w ++ rows)
       reason false true true).2 in
  let flagged :=
    if fallback_condition just_flagged named
    then remove_dups (just_flagged ++ latest)
    else just_flagged in
  activity_log (flag_for_human_review self w).1
  = (activity_log w
     ++ match flagged with
        | [] => []
        | _ :: _ =>
            [{| log_id := Z.of_nat (length (activity_log w)) + 1;
                log_action := NEEDS_HUMAN_REVIEW_CINDER;
                log_arguments :=
                  ArgVersion <$> sorted_by_id (iteration_order flagged);
                log_details := Some (get_reason_display reason) |}]
        end)%list.
Proof.
  intros Hgate Hthird Ht. cbn zeta.
  unfold flag_for_human_review. rewrite Hgate. cbn [negb].
  run. rewrite Ht, Hthird. cbn. rewrite just_flagged_eq.
  rewrite flag_each_run.
  set (named := reported_versions (decision self)).
  set (just_flagged := unflagged_reported_versions _ _ _ _).
  pose proof (nhr_object_reason REASON_CINDER_ESCALATION
                (iteration_order just_flagged)) as Hobj.
  set (obj := match last (new_flag REASON_CINDER_ESCALATION
                          <$> iteration_order just_flagged) with
              | Some row => Some row
              | None => None
              end) in *.
  clearbody obj.
  destruct (fallback_condition just_flagged named) eqn:Hfb.
  - unfold flag_latest. cbn.
    destruct (set_needs_human_review_on_latest_versions _ _ _ _ _ _)
      as [fl latest] eqn:Hlatest. cbn.
    destruct (remove_dups (just_flagged ++ latest)) as [|v0 vs] eqn:Hd;
      cbn; [by rewrite app_nil_r|].
    by rewrite Hobj.
  - cbn. destruct just_flagged as [|v0 vs] eqn:Hjf; cbn;
      [by rewrite app_nil_r|].
    by rewrite Hobj.
Qed.

(** The flags the loop saves, as the journal shows them. *)
Lemma flag_for_human_review_saved self a w :
  switch_is_active "dsa-cinder-escalations-review" = true →
  is_third_party_initiated (decision self) = true →
  target w = TAddon a →
  saved_flags (calls_since w (flag_for_human_review self w).1)
  = new_flag REASON_CINDER_ESCALATION
    <$> iteration_order
          (unflagged_reported_versions a (flags w)
             REASON_CINDER_ESCALATION
             (reported_versions (decision self))).
Proof.
  intros Hgate Hthird Ht.
  destruct (flag_for_human_review_run self a w Hgate Hthird Ht)
    as (_ & Hcalls & _).
  cbn zeta in Hcalls. rewrite Hcalls. unfold saved_flags.
  rewrite omap_app.
  match goal with
  | |- context [omap _ (call_nhr_save <$> ?rows)] =>
      fold (saved_flags (call_nhr_save <$> rows))
  end.
  rewrite saved_flags_of_saves.
  destruct (fallback_condition _ _); cbn; by rewrite app_nil_r.
Qed.

Lemma id_le_total : Total id_le.
Proof. intros v1 v2. unfold id_le. lia. Qed.

(** X17.  With the switch [dsa-cinder-escalations-review] off, or on a
    decision that is not third-party initiated, the escalation flags
    nothing: no flag is saved, the latest versions are not flagged, and
    the target, the accounts, the flags and the activity log stay as they
    were.  With the switch off the skip is logged; with the switch on
    nothing at all is called. *)
Theorem escalation_skipped (d : CinderDecision)
    (v : option (option Version)) (w : World) :
  switch_is_active "dsa-cinder-escalations-review" = false
  ∨ is_third_party_initiated d = false →
  let out := process_action (action_of CinderActionEscalateAddon d v) w in
  out.2 = Returned None
  ∧ target out.1 = target w
  ∧ users out.1 = users w
  ∧ flags out.1 = flags w
  ∧ activity_log out.1 = activity_log w
  ∧ calls_since w out.1
    = if switch_is_active "dsa-cinder-escalations-review"
      then [] else [call_log_info].
Proof.
  intros Hskip. cbn zeta. unfold process_action. run.
  unfold CinderActionEscalateAddon_process_action, flag_for_human_review.
  destruct (switch_is_active _) eqn:Hgate; cbn [negb].
  - destruct Hskip as [Hoff | Hfirst]; [done|].
    run. destruct (target w) eqn:Ht; cbn; rewrite ?Hfirst; cbn;
      repeat split; try done; unfold calls_since; by rewrite drop_all.
  - run. repeat split. by apply calls_since_app.
Qed.

(** X18.  With the gate open, on a third-party decision about an add-on,
    the run writes one [NEEDS_HUMAN_REVIEW_CINDER] entry when some
    version ended up flagged, by the loop or by the helper, and none
    otherwise.  The entry names every flagged version once, in
    ascending order of version id, and its details carry the display
    text of the escalation reason. *)
Theorem escalation_audit_entry `{!SetIterationLaws} (d : CinderDecision)
    (v : option (option Version)) (a : Addon) (w : World) :
  switch_is_active "dsa-cinder-escalations-review" = true →
  is_third_party_initiated d = true →
  target w = TAddon a →
  let reason := REASON_CINDER_ESCALATION in
  let named := reported_versions d in
  let just_flagged :=
    unflagged_reported_versions a (flags w) reason named in
  let w' :=
    (process_action (action_of CinderActionEscalateAddon d v) w).1 in
  let latest :=
    (set_needs_human_review_on_latest_versions a
       (flags w ++ saved_flags (calls_since w w'))
       reason false true true).2 in
  let flagged :=
    if fallback_condition just_flagged named
    then remove_dups (just_flagged ++ latest)
    else just_flagged in
  (flagged = [] → activity_log w' = activity_log w)
  ∧ (flagged ≠ [] →
     ∃ entry vs,
       activity_log w' = (activity_log w ++ [entry])%list
       ∧ log_action entry = NEEDS_HUMAN_REVIEW_CINDER
       ∧ log_details entry = Some (get_reason_display reason)
       ∧ log_arguments entry = ArgVersion <$> vs
       ∧ vs ≡ₚ flagged
       ∧ NoDup vs
       ∧ Sorted id_le vs).
Proof.
  intros Hgate Hthird Ht reason named just_flagged w'.
  pose proof (flag_for_human_review_saved
                (action_of CinderActionEscalateAddon d v)
                a w Hgate Hthird Ht) as Hsaved.
  change (saved_flags (calls_since w w')
          = new_flag reason <$> iteration_order just_flagged) in Hsaved.
  rewrite Hsaved. intros latest flagged.
  pose proof (flag_for_human_review_log
                (action_of CinderActionEscalateAddon d v) a w
                Hgate Hthird Ht) as Hlog.
  cbn zeta in Hlog. fold reason named just_flagged latest flagged in Hlog.
  change (activity_log w' =
          (activity_log w
           ++ match flagged with
              | [] => []
              | _ :: _ =>
                  [{| log_id := Z.of_nat (length (activity_log w)) + 1;
                      log_action := NEEDS_HUMAN_REVIEW_CINDER;
                      log_arguments :=
                        ArgVersion
                        <$> sorted_by_id (iteration_order flagged);
                      log_details := Some (get_reason_display reason) |}]
              end)%list) in Hlog.
  assert (Hnodup : NoDup flagged).
  { subst flagged. destruct (fallback_condition _ _).
    - apply NoDup_remove_dups.
    - apply NoDup_remove_dups. }
  split.
  - intros Hempty. rewrite Hlog, Hempty. by rewrite app_nil_r.
  - intros Hne. destruct flagged as [|v0 vs] eqn:Hf; [done|].
    eexists _, (sorted_by_id (iteration_order (v0 :: vs))). rewrite Hlog.
    split; [reflexivity|]. repeat split.
    + unfold sorted_by_id.
      by rewrite merge_sort_Permutation, iteration_order_Permutation.
    + unfold sorted_by_id.
      by rewrite merge_sort_Permutation, iteration_order_Permutation.
    + apply (@Sorted_merge_sort _ id_le _ id_le_total).
Qed.
Lemma excluded_false_no_active reason fl v f :
  excluded reason fl v = false →
  f ∈ fl → nhr_is_active f = true → nhr_reason f = reason →
  version_id (nhr_version f) ≠ version_id v.
Proof.
  intros Hnone Hin Hact Hreason Hid.
  assert (Hf : f ∈ flags_of fl v) by by apply list_elem_of_filter.
  apply excluded_false in Hnone as [Hnone | Hnone];
    rewrite Forall_forall in Hnone; specialize (Hnone f Hf); cbn in Hnone.
  - done.
  - by rewrite Hact in Hnone.
Qed.

Lemma fmap_inj_on_NoDup {A B} (f : A → B) (l : list A) x y :
  NoDup (f <$> l) → x ∈ l → y ∈ l → f x = f y → x = y.
Proof.
  induction l as [|z l IH]; [by intros _ Hx; apply elem_of_nil in Hx|].
  rewrite fmap_cons, NoDup_cons. intros [Hz Hl] Hx Hy Heq.
  apply elem_of_cons in Hx as [-> | Hx];
    apply elem_of_cons in Hy as [-> | Hy]; [done | | | by apply IH].
  - exfalso. apply Hz. rewrite Heq. by apply list_elem_of_fmap_2.
  - exfalso. apply Hz. rewrite <- Heq. by apply list_elem_of_fmap_2.
Qed.

Lemma unflagged_reported_versions_spec a fl reason reported v :
  v ∈ unflagged_reported_versions a fl reason reported
  ↔ v ∈ versions a
    ∧ Some (version v) ∈ reported
    ∧ excluded reason fl v = false.
Proof.
  unfold unflagged_reported_versions.
  rewrite elem_of_remove_dups, list_elem_of_filter.
  split; [by intros [[? ?] ?] | by intros (? & ? & ?)].
Qed.

Lemma active_flags_app_new fl reason vs :
  active_flags (fl ++ (new_flag reason <$> vs))
  = (active_flags fl ++ (new_flag reason <$> vs))%list.
Proof.
  unfold active_flags. rewrite filter_app. f_equal.
  induction vs as [|v vs IH]; [done|].
  rewrite fmap_cons, filter_cons_True by done. by rewrite IH.
Qed.

(** X19.  With the gate open, on a third-party decision about an add-on,
    every flag the loop saves is active, carries the escalation reason
    and is for a version of the target that a report names; no version
    gets two. *)
Theorem escalation_saved_flags `{!SetIterationLaws} (d : CinderDecision)
    (v : option (option Version)) (a : Addon) (w : World) :
  switch_is_active "dsa-cinder-escalations-review" = true →
  is_third_party_initiated d = true →
  target w = TAddon a →
  let w' :=
    (process_action (action_of CinderActionEscalateAddon d v) w).1 in
  let saved := saved_flags (calls_since w w') in
  NoDup (nhr_version <$> saved)
  ∧ Forall (λ row,
              nhr_is_active row = true
              ∧ nhr_reason row = REASON_CINDER_ESCALATION
              ∧ nhr_version row ∈ versions a
              ∧ (∃ r, r ∈ reports d
                      ∧ report_addon_version r
                        = Some (version (nhr_version row)))) saved.
Proof.
  intros Hgate Hthird Ht w' saved.
  pose proof (flag_for_human_review_saved
                (action_of CinderActionEscalateAddon d v)
                a w Hgate Hthird Ht) as Hsaved.
  change (saved = new_flag REASON_CINDER_ESCALATION
                  <$> iteration_order
                        (unflagged_reported_versions a (flags w)
                           REASON_CINDER_ESCALATION (reported_versions d)))
    in Hsaved.
  rewrite Hsaved. split.
  - rewrite <- list_fmap_compose.
    replace (nhr_version ∘ new_flag REASON_CINDER_ESCALATION)
      with (@id Version) by done.
    rewrite list_fmap_id, iteration_order_Permutation.
    apply NoDup_remove_dups.
  - apply Forall_fmap, Forall_forall. intros ver Hver.
    rewrite iteration_order_Permutation in Hver.
    apply unflagged_reported_versions_spec in Hver
      as (Hin & Hnamed & Hnone).
    cbn. repeat split; try done.
    unfold reported_versions in Hnamed.
    apply elem_of_remove_dups, list_elem_of_fmap in Hnamed
      as (r & Hr & Hrin).
    by exists r.
Qed.

(** X20.  If no two active flags of the store are for the same version
    and reason, and the versions of the add-on have distinct ids, the
    flags the loop saves keep it so; when the helper for the latest
    versions is not called, that is the store the run leaves. *)
Theorem escalation_keeps_flags_unique `{!SetIterationLaws}
    (d : CinderDecision) (v : option (option Version)) (a : Addon)
    (w : World) :
  switch_is_active "dsa-cinder-escalations-review" = true →
  is_third_party_initiated d = true →
  target w = TAddon a →
  flags_unique (flags w) →
  NoDup (version_id <$> versions a) →
  let reason := REASON_CINDER_ESCALATION in
  let just_flagged :=
    unflagged_reported_versions a (flags w) reason
      (reported_versions d) in
  let w' :=
    (process_action (action_of CinderActionEscalateAddon d v) w).1 in
  let saved := saved_flags (calls_since w w') in
  flags_unique (flags w ++ saved)
  ∧ (fallback_condition just_flagged (reported_versions d) = false →
     flags w' = (flags w ++ saved)%list
     ∧ flags_unique (flags w')).
Proof.
  intros Hgate Hthird Ht Hunique Hids reason just_flagged w' saved.
  pose proof (flag_for_human_review_saved
                (action_of CinderActionEscalateAddon d v)
                a w Hgate Hthird Ht) as Hsaved.
  change (saved = new_flag reason <$> iteration_order just_flagged)
    in Hsaved.
  assert (Hafter : flags_unique (flags w ++ saved)).
  { rewrite Hsaved.
    unfold flags_unique. rewrite active_flags_app_new, fmap_app.
    apply NoDup_app. split; [done|]. split.
    - intros key Hold Hnew.
      apply list_elem_of_fmap in Hold as (f & -> & Hf).
      apply list_elem_of_filter in Hf as [Hact Hf].
      rewrite <- list_fmap_compose in Hnew.
      apply list_elem_of_fmap in Hnew as (ver & Hkey & Hver).
      rewrite iteration_order_Permutation in Hver.
      apply unflagged_reported_versions_spec in Hver as (_ & _ & Hnone).
      injection Hkey as Hid Hreason.
      by apply (excluded_false_no_active reason (flags w) ver f).
    - rewrite <- list_fmap_compose.
      apply NoDup_fmap_2_strong.
      + intros x y Hx Hy [= Hid].
        rewrite iteration_order_Permutation in Hx, Hy.
        apply unflagged_reported_versions_spec in Hx as (Hx & _).
        apply unflagged_reported_versions_spec in Hy as (Hy & _).
        by apply (fmap_inj_on_NoDup version_id (versions a)).
      + rewrite iteration_order_Permutation. apply NoDup_remove_dups. }
  split; [done|]. intros Hno.
  destruct (flag_for_human_review_run
              (action_of CinderActionEscalateAddon d v) a w
              Hgate Hthird Ht) as (_ & _ & Hflags).
  cbn in Hflags. fold reason just_flagged in Hflags.
  rewrite Hno in Hflags. rewrite <- Hsaved in Hflags.
  assert (Hw' : flags w' = (flags w ++ saved)%list) by exact Hflags.
  split; [done|]. by rewrite Hw'.
Qed.

End FlaggerMore.

(** Witness of X17: a first-party decision on a site that flags
    escalations. *)
Lemma escalation_skipped_witness :
  let out :=
    process_action (H := escalation_site)
      (action_of CinderActionEscalateAddon (sample_decision false []) None)
      escalation_world in
  out.2 = Returned None
  ∧ target out.1 = target escalation_world
  ∧ users out.1 = users escalation_world
  ∧ flags out.1 = flags escalation_world
  ∧ activity_log out.1 = activity_log escalation_world
  ∧ calls_since escalation_world out.1 = [].
Proof.
  apply (escalation_skipped (H := escalation_site)
           (sample_decision false []) None escalation_world).
  by right.
Defined.

(** Witness of X18: versions 1.0 and 3.0 end up flagged and are logged in
    that order. *)
Lemma escalation_audit_entry_witness :
  ∃ entry vs,
    activity_log
      (process_action (H := escalation_site)
         (action_of CinderActionEscalateAddon escalation_decision None)
         escalation_world).1
    = [entry]
    ∧ log_action entry = NEEDS_HUMAN_REVIEW_CINDER
    ∧ log_details entry = Some "Escalated for an abuse report"
    ∧ log_arguments entry = ArgVersion <$> vs
    ∧ vs ≡ₚ [v1; v3]
    ∧ NoDup vs
    ∧ Sorted id_le vs.
Proof.
  destruct (escalation_audit_entry (H := escalation_site)
              escalation_decision None sample_addon escalation_world
              eq_refl eq_refl eq_refl) as [_ Hentry].
  apply Hentry. vm_compute. discriminate.
Defined.

(** Witness of X19: the one flag saved is for version 1.0. *)
Lemma escalation_saved_flags_witness :
  NoDup
    (nhr_version
     <$> saved_flags
           (calls_since escalation_world
              (process_action (H := escalation_site)
                 (action_of CinderActionEscalateAddon escalation_decision
                    None) escalation_world).1)).
Proof.
  apply (escalation_saved_flags (H := escalation_site)
           escalation_decision None sample_addon escalation_world);
    reflexivity.
Defined.

(** Witness of X20: the store of the sample world, with its one flag on
    version 2.0, stays free of doubles. *)
Lemma escalation_keeps_flags_unique_witness :
  flags_unique
    (flags escalation_world
     ++ saved_flags
          (calls_since escalation_world
             (process_action (H := escalation_site)
                (action_of CinderActionEscalateAddon escalation_decision
                   None) escalation_world).1)).
Proof.
  apply (escalation_keeps_flags_unique (H := escalation_site)
           escalation_decision None sample_addon escalation_world);
    try reflexivity.
  - decide_it.
  - decide_it.
Defined.

(** * What a run may touch *)

Section Frame.
Context `{Collaborators}.

Ltac grown :=
  first [ exists []; rewrite app_nil_r; split; [reflexivity | cbn; lia]
        | eexists [_]; split; [reflexivity | cbn; lia] ].

Lemma flag_for_human_review_frame self w :
  let w' := (flag_for_human_review self w).1 in
  target w' = target w
  ∧ users w' = users w
  ∧ ∃ suffix,
      activity_log w' = (activity_log w ++ suffix)%list
      ∧ (length suffix ≤ 1)%nat.
Proof.
  cbn zeta. unfold flag_for_human_review.
  destruct (switch_is_active _); cbn [negb]; run;
    [|split; [done|]; split; [done|]; grown].
  destruct (target w) as [a| | |] eqn:Ht;
    try (rewrite ?Ht; split; [done|]; split; [done|]; grown).
  destruct (is_third_party_initiated _);
    [|rewrite ?Ht; split; [done|]; split; [done|]; grown].
  cbn. rewrite flag_each_run.
  destruct (fallback_condition _ _); cbn.
  - unfold flag_latest. cbn.
    destruct (set_needs_human_review_on_latest_versions _ _ _ _ _ _).
    cbn. destruct (remove_dups _); cbn; rewrite ?Ht;
      (split; [done|]); (split; [done|]); grown.
  - destruct (if bool_decide _ then _ else _); cbn;
      rewrite ?Ht; (split; [done|]); (split; [done|]); grown.
Qed.

(** X21.  Whatever the instance and the world, a run of [process_action]
    only ever appends to the activity log, and at most one entry; the
    human-review flags are touched by no class but the escalation; the
    table of accounts is touched only when the target is an account, and
    then in no row but the one under its primary key, while the object
    [self.target] stays as it was; and the approvals without action, the
    affirmation of a removal and the fallback class leave the whole world
    as it was and return no entry. *)
Theorem process_action_frame (self : Action) (w : World) :
  let out := process_action self w in
  (∃ suffix,
      activity_log out.1 = (activity_log w ++ suffix)%list
      ∧ (length suffix ≤ 1)%nat)
  ∧ (cls self ≠ CinderActionEscalateAddon → flags out.1 = flags w)
  ∧ (∀ u, target w = TUserProfile u →
          target out.1 = target w
          ∧ ∀ pk, pk ≠ user_pk u → users out.1 !! pk = users w !! pk)
  ∧ (kind_of (target w) ≠ UserProfile_ → users out.1 = users w)
  ∧ (cls self ∈ [CinderActionApproveNoAction;
                 CinderActionApproveInitialDecision;
                 CinderActionTargetAppealRemovalAffirmation;
                 CinderActionNotImplemented] →
     out = (w, Returned None)).
Proof.
  destruct self as [c d v]. cbn zeta. unfold process_action. run.
  pose proof (flag_for_human_review_frame
                (action_of CinderActionEscalateAddon d v) w)
    as (Hft & Hfu & Hfl).
  unfold action_of in Hft, Hfu, Hfl.
  split; [|split; [|split; [|split]]].
  - destruct c; cbn; try exact Hfl;
      unfold CinderAction_process_action,
        CinderActionBanUser_process_action,
        CinderActionDisableAddon_process_action,
        CinderActionDeleteCollection_process_action,
        CinderActionDeleteRating_process_action,
        CinderActionTargetAppealApprove_process_action, return_None;
      run; destruct (target w) as [a | u | co | r]; cbn;
      repeat match goal with
             | |- context [if ?b then _ else _] => destruct b; cbn
             end;
      grown.
  - intros Hc. destruct c; try done; cbn;
      unfold CinderAction_process_action,
        CinderActionBanUser_process_action,
        CinderActionDisableAddon_process_action,
        CinderActionDeleteCollection_process_action,
        CinderActionDeleteRating_process_action,
        CinderActionTargetAppealApprove_process_action, return_None;
      run; destruct (target w) as [a | u | co | r]; cbn;
      repeat match goal with
             | |- context [if ?b then _ else _] => destruct b; cbn
             end; done.
  - intros u Ht.
    destruct c; cbn;
      try (unfold CinderActionEscalateAddon_process_action;
           split; [exact Hft | intros pk _; by rewrite Hfu]);
      unfold CinderAction_process_action,
        CinderActionBanUser_process_action,
        CinderActionDisableAddon_process_action,
        CinderActionDeleteCollection_process_action,
        CinderActionDeleteRating_process_action,
        CinderActionTargetAppealApprove_process_action, return_None;
      run; rewrite Ht; cbn;
      repeat match goal with
             | |- context [if ?b then _ else _] => destruct b; cbn
             end;
      (split; [done|]); intros pk Hpk; try done;
      by rewrite lookup_alter_ne.
  - intros Hk.
    destruct c; cbn;
      try (unfold CinderActionEscalateAddon_process_action; exact Hfu);
      unfold CinderAction_process_action,
        CinderActionBanUser_process_action,
        CinderActionDisableAddon_process_action,
        CinderActionDeleteCollection_process_action,
        CinderActionDeleteRating_process_action,
        CinderActionTargetAppealApprove_process_action, return_None;
      run; destruct (target w) as [a | u | co | r]; cbn; try done;
      repeat match goal with
             | |- context [if ?b then _ else _] => destruct b; cbn
             end; done.
  - intros Hc.
    repeat (apply elem_of_cons in Hc as [-> | Hc]);
      [ .. | by apply elem_of_nil in Hc ]; reflexivity.
Qed.

End Frame.
